(** * psshlib.task: the per-host task supervisor

    A shallow embedding of [psshlib/task.py] (class [Task]) and the
    properties of its line framer, stream handlers, supervisor state
    machine and reporter.

    Python values are modelled as follows.
    - [bytes] are [list byte]; [str] values are [string] (the UTF-8 text).
    - [int] is [Z]; [None]-able attributes are [option].
    - The dictionary [fd_to_buffer], keyed by [(fd, atype)], is a [gmap].
    - Every call on a collaborator (reactor, writer, sinks, the OS) is
      recorded, in order, in a trace of [event]s; what the OS answers
      ([os.read], [os.write], [proc.poll]) is an argument of the operation.
    - A method is a computation in the monad [M]: it threads the task and
      the trace, and either returns or raises an uncaught exception. *)

From Stdlib Require Import ZArith List Lia DecimalString.
From Stdlib.Strings Require Import String Ascii Byte.
From stdpp Require Import gmap strings list.
Import ListNotations.
Open Scope Z_scope.

(** ** Python helpers *)

Module Py.

(** [sep.join(items)] on text. *)
Fixpoint join (sep : string) (items : list string) : string :=
  match items with
  | [] => EmptyString
  | [x] => x
  | x :: rest => x +:+ sep +:+ join sep rest
  end.

(** [sep.join(items)] on bytes. *)
Fixpoint bjoin (sep : list byte) (items : list (list byte)) : list byte :=
  match items with
  | [] => []
  | [x] => x
  | x :: rest => x ++ sep ++ bjoin sep rest
  end.

(** ['%s' % n] for an integer [n]. *)
Definition str_of_int (n : Z) : string :=
  NilZero.string_of_int (Z.to_int n).

(** [s.encode('utf-8')]: text is kept as its UTF-8 bytes. *)
Definition encode (s : string) : list byte := list_byte_of_string s.

(** Truth value of a bytes object. *)
Definition truthy (b : list byte) : bool :=
  match b with [] => false | _ :: _ => true end.

(** Truth value of an optional text. *)
Definition truthy_str (s : option string) : bool :=
  match s with
  | Some (String _ _) => true
  | _ => false
  end.

(** [len(buf)]. *)
Definition len (buf : list byte) : Z := Z.of_nat (length buf).

(** A slice bound as Python normalises it: a negative index counts from
    the end, and the result is clamped to [0 .. len]. *)
Definition clamp (n i : Z) : Z :=
  if i <? 0 then Z.max (i + n) 0 else Z.min i n.

(** [buf[start:stop]]. *)
Definition slice (buf : list byte) (start stop : Z) : list byte :=
  let lo := clamp (len buf) start in
  let hi := clamp (len buf) stop in
  firstn (Z.to_nat (hi - lo)) (skipn (Z.to_nat lo) buf).

(** The one-character text of a backslash. *)
Definition backslash : string := String (ascii_of_byte x5c) EmptyString.

Definition LF : byte := x0a.
Definition CR : byte := x0d.

Definition is_LF (c : byte) : bool := Byte.eqb c LF.
Definition is_CR (c : byte) : bool := Byte.eqb c CR.

(** The line boundaries of [bytes.splitlines]: LF, CR and CR LF. *)
Definition is_linebreak (c : byte) : bool := is_LF c || is_CR c.

(** [bytes.splitlines()] (terminators dropped).  [cur] is the line being
    scanned.  A terminator closes the current line, even an empty one;
    at the end of the input a non-empty unterminated rest is a line. *)
Fixpoint splitlines_from (cur : list byte) (l : list byte)
  : list (list byte) :=
  match l with
  | [] => match cur with [] => [] | _ :: _ => [cur] end
  | c :: rest =>
      if is_LF c then cur :: splitlines_from [] rest
      else if is_CR c then
        match rest with
        | c' :: rest' =>
            if is_LF c' then cur :: splitlines_from [] rest'
            else cur :: splitlines_from [] rest
        | [] => [cur]
        end
      else splitlines_from (cur ++ [c]) rest
  end.

Definition splitlines (buf : list byte) : list (list byte) :=
  splitlines_from [] buf.

(** [buf[-1:] != b'\n']. *)
Definition last_is_not_LF (buf : list byte) : bool :=
  match rev buf with
  | [] => true
  | c :: _ => negb (is_LF c)
  end.

(** [lines[-1]] and [lines[:-1]] on a non-empty list. *)
Definition last_line (lines : list (list byte)) : list byte :=
  List.last lines [].
Definition but_last (lines : list (list byte)) : list (list byte) :=
  removelast lines.

End Py.


(** ** Collaborators outside the module *)

(** [psshlib.color]: each helper wraps a text in terminal escapes.  The
    module is a parameter of the development; the escapes are assumed to
    contain no ['%'], so the conversions of an [OUTPUT_FORMATS] entry
    are the two written in the source. *)
Module Color.
Record Palette : Type := {
  B : string -> string;
  r : string -> string;
  g : string -> string;
  b : string -> string;
  y : string -> string;
  c : string -> string
}.
End Color.

(** What the interpreter and the platform fix: the colour helpers, and
    whether [sys.stdout] has a [buffer] attribute (Python 3). *)
Record Runtime : Type := {
  palette : Color.Palette;
  py3 : bool
}.

(** [errno.EINTR] and [signal.SIGKILL] (Linux values). *)
Definition EINTR : Z := 4.
Definition SIGKILL : Z := 9.

Definition BUFFER_SIZE : Z := Z.shiftl 1 16.

(** An [OSError] as the handlers see it: [str(exc)] is
    ["[Errno n] strerror"]; the type and the formatted traceback are only
    printed in verbose mode. *)
Record OSError : Type := {
  errno : Z;
  strerror : string;
  exc_type : string;
  exc_traceback : string
}.

Definition str_of_exc (e : OSError) : string :=
  "[Errno " +:+ Py.str_of_int (errno e) +:+ "] " +:+ strerror e.

(** The answer of [os.read] or [os.write]. *)
Inductive io_result (A : Type) : Type :=
| IoOk (a : A)
| IoErr (e : OSError).
Arguments IoOk {A} a.
Arguments IoErr {A} e.

(** The child process: its pid and the descriptors of its three pipes. *)
Record Popen : Type := {
  pid : Z;
  proc_stdin : Z;
  proc_stdout : Z;
  proc_stderr : Z
}.

(** The writer collaborator, by reference. *)
Record Writer : Type := { writer_id : Z }.

(** The four possible sinks: the text streams and their binary buffers. *)
Inductive stream : Type :=
| SysStdout | SysStderr | SysStdoutBuffer | SysStderrBuffer.

Definition is_binary (s : stream) : bool :=
  match s with
  | SysStdoutBuffer | SysStderrBuffer => true
  | SysStdout | SysStderr => false
  end.

(** A value handed to a sink: bytes or text. *)
Inductive pyval : Type :=
| PBytes (data : list byte)
| PText (s : string).

Definition bytes_of (v : pyval) : list byte :=
  match v with
  | PBytes data => data
  | PText s => Py.encode s
  end.

Inductive callback : Type := CbStdin | CbStdout | CbStderr.

(** Calls on the outside world, in program order. *)
Inductive event : Type :=
| EPopen (cmd : list string) (environ : gmap string string)
| ERegisterRead (fd : Z) (cb : callback)
| ERegisterWrite (fd : Z) (cb : callback)
| EUnregister (fd : Z)
| EClose (fd : Z)
| EKill (target : Z) (sig : Z)
| EPoll (pid : Z)
| EOsWrite (fd : Z) (chunk : list byte)
| EOsRead (fd : Z) (size : Z)
| EWriterOpen (w : Writer) (name : string)
| EWriterWrite (handle : Z) (data : list byte)
| EWriterClose (handle : Z)
| ESinkWrite (s : stream) (data : list byte)
| ESinkFlush (s : stream).

(** ** The task *)

(** The options object; attributes read under [try/except AttributeError]
    may be absent. *)
Record Options : Type := {
  opt_user : option string;
  opt_verbose : bool;
  opt_print_out : option bool;
  opt_inline : option bool;
  opt_no_annotate_lines : option bool;
  opt_no_buffer_lines : option bool;
  opt_inline_stdout : option bool
}.

Record Task : Type := Build_Task {
  exitstatus : option Z;
  host : string;
  host_b : list byte;
  pretty_host : string;
  port : option string;
  cmd : list string;
  proc : option Popen;
  writer : option Writer;
  timestamp : option Z;
  failures : list string;
  killed : bool;
  inputbuffer : option (list byte);
  byteswritten : Z;
  outputbuffer : list byte;
  fd_to_buffer : gmap (Z * string) (list byte);
  errorbuffer : list byte;
  stdin : option Z;
  stdout : option Z;
  stderr : option Z;
  outfile : option Z;
  errfile : option Z;
  outstream : stream;
  errstream : stream;
  verbose : bool;
  print_out : bool;
  inline : bool;
  annotate_lines : bool;
  buffer_lines : bool;
  inline_stdout : bool
}.

(** Attribute assignment, one setter per attribute the methods assign. *)
Definition set_exitstatus (v : option Z) (t : Task) : Task :=
  {| exitstatus := v; host := host t; host_b := host_b t;
     pretty_host := pretty_host t; port := port t; cmd := cmd t;
     proc := proc t; writer := writer t; timestamp := timestamp t;
     failures := failures t; killed := killed t;
     inputbuffer := inputbuffer t; byteswritten := byteswritten t;
     outputbuffer := outputbuffer t; fd_to_buffer := fd_to_buffer t;
     errorbuffer := errorbuffer t; stdin := stdin t; stdout := stdout t;
     stderr := stderr t; outfile := outfile t; errfile := errfile t;
     outstream := outstream t; errstream := errstream t;
     verbose := verbose t; print_out := print_out t; inline := inline t;
     annotate_lines := annotate_lines t; buffer_lines := buffer_lines t;
     inline_stdout := inline_stdout t |}.

Definition set_proc (v : option Popen) (t : Task) : Task :=
  {| exitstatus := exitstatus t; host := host t; host_b := host_b t;
     pretty_host := pretty_host t; port := port t; cmd := cmd t; proc := v;
     writer := writer t; timestamp := timestamp t; failures := failures t;
     killed := killed t; inputbuffer := inputbuffer t;
     byteswritten := byteswritten t; outputbuffer := outputbuffer t;
     fd_to_buffer := fd_to_buffer t; errorbuffer := errorbuffer t;
     stdin := stdin t; stdout := stdout t; stderr := stderr t;
     outfile := outfile t; errfile := errfile t; outstream := outstream t;
     errstream := errstream t; verbose := verbose t;
     print_out := print_out t; inline := inline t;
     annotate_lines := annotate_lines t; buffer_lines := buffer_lines t;
     inline_stdout := inline_stdout t |}.

Definition set_writer (v : option Writer) (t : Task) : Task :=
  {| exitstatus := exitstatus t; host := host t; host_b := host_b t;
     pretty_host := pretty_host t; port := port t; cmd := cmd t;
     proc := proc t; writer := v; timestamp := timestamp t;
     failures := failures t; killed := killed t;
     inputbuffer := inputbuffer t; byteswritten := byteswritten t;
     outputbuffer := outputbuffer t; fd_to_buffer := fd_to_buffer t;
     errorbuffer := errorbuffer t; stdin := stdin t; stdout := stdout t;
     stderr := stderr t; outfile := outfile t; errfile := errfile t;
     outstream := outstream t; errstream := errstream t;
     verbose := verbose t; print_out := print_out t; inline := inline t;
     annotate_lines := annotate_lines t; buffer_lines := buffer_lines t;
     inline_stdout := inline_stdout t |}.

Definition set_timestamp (v : option Z) (t : Task) : Task :=
  {| exitstatus := exitstatus t; host := host t; host_b := host_b t;
     pretty_host := pretty_host t; port := port t; cmd := cmd t;
     proc := proc t; writer := writer t; timestamp := v;
     failures := failures t; killed := killed t;
     inputbuffer := inputbuffer t; byteswritten := byteswritten t;
     outputbuffer := outputbuffer t; fd_to_buffer := fd_to_buffer t;
     errorbuffer := errorbuffer t; stdin := stdin t; stdout := stdout t;
     stderr := stderr t; outfile := outfile t; errfile := errfile t;
     outstream := outstream t; errstream := errstream t;
     verbose := verbose t; print_out := print_out t; inline := inline t;
     annotate_lines := annotate_lines t; buffer_lines := buffer_lines t;
     inline_stdout := inline_stdout t |}.

Definition set_failures (v : list string) (t : Task) : Task :=
  {| exitstatus := exitstatus t; host := host t; host_b := host_b t;
     pretty_host := pretty_host t; port := port t; cmd := cmd t;
     proc := proc t; writer := writer t; timestamp := timestamp t;
     failures := v; killed := killed t; inputbuffer := inputbuffer t;
     byteswritten := byteswritten t; outputbuffer := outputbuffer t;
     fd_to_buffer := fd_to_buffer t; errorbuffer := errorbuffer t;
     stdin := stdin t; stdout := stdout t; stderr := stderr t;
     outfile := outfile t; errfile := errfile t; outstream := outstream t;
     errstream := errstream t; verbose := verbose t;
     print_out := print_out t; inline := inline t;
     annotate_lines := annotate_lines t; buffer_lines := buffer_lines t;
     inline_stdout := inline_stdout t |}.

Definition set_killed (v : bool) (t : Task) : Task :=
  {| exitstatus := exitstatus t; host := host t; host_b := host_b t;
     pretty_host := pretty_host t; port := port t; cmd := cmd t;
     proc := proc t; writer := writer t; timestamp := timestamp t;
     failures := failures t; killed := v; inputbuffer := inputbuffer t;
     byteswritten := byteswritten t; outputbuffer := outputbuffer t;
     fd_to_buffer := fd_to_buffer t; errorbuffer := errorbuffer t;
     stdin := stdin t; stdout := stdout t; stderr := stderr t;
     outfile := outfile t; errfile := errfile t; outstream := outstream t;
     errstream := errstream t; verbose := verbose t;
     print_out := print_out t; inline := inline t;
     annotate_lines := annotate_lines t; buffer_lines := buffer_lines t;
     inline_stdout := inline_stdout t |}.

Definition set_byteswritten (v : Z) (t : Task) : Task :=
  {| exitstatus := exitstatus t; host := host t; host_b := host_b t;
     pretty_host := pretty_host t; port := port t; cmd := cmd t;
     proc := proc t; writer := writer t; timestamp := timestamp t;
     failures := failures t; killed := killed t;
     inputbuffer := inputbuffer t; byteswritten := v;
     outputbuffer := outputbuffer t; fd_to_buffer := fd_to_buffer t;
     errorbuffer := errorbuffer t; stdin := stdin t; stdout := stdout t;
     stderr := stderr t; outfile := outfile t; errfile := errfile t;
     outstream := outstream t; errstream := errstream t;
     verbose := verbose t; print_out := print_out t; inline := inline t;
     annotate_lines := annotate_lines t; buffer_lines := buffer_lines t;
     inline_stdout := inline_stdout t |}.

Definition set_outputbuffer (v : list byte) (t : Task) : Task :=
  {| exitstatus := exitstatus t; host := host t; host_b := host_b t;
     pretty_host := pretty_host t; port := port t; cmd := cmd t;
     proc := proc t; writer := writer t; timestamp := timestamp t;
     failures := failures t; killed := killed t;
     inputbuffer := inputbuffer t; byteswritten := byteswritten t;
     outputbuffer := v; fd_to_buffer := fd_to_buffer t;
     errorbuffer := errorbuffer t; stdin := stdin t; stdout := stdout t;
     stderr := stderr t; outfile := outfile t; errfile := errfile t;
     outstream := outstream t; errstream := errstream t;
     verbose := verbose t; print_out := print_out t; inline := inline t;
     annotate_lines := annotate_lines t; buffer_lines := buffer_lines t;
     inline_stdout := inline_stdout t |}.

Definition set_fd_to_buffer (v : gmap (Z * string) (list byte)) (t : Task) : Task :=
  {| exitstatus := exitstatus t; host := host t; host_b := host_b t;
     pretty_host := pretty_host t; port := port t; cmd := cmd t;
     proc := proc t; writer := writer t; timestamp := timestamp t;
     failures := failures t; killed := killed t;
     inputbuffer := inputbuffer t; byteswritten := byteswritten t;
     outputbuffer := outputbuffer t; fd_to_buffer := v;
     errorbuffer := errorbuffer t; stdin := stdin t; stdout := stdout t;
     stderr := stderr t; outfile := outfile t; errfile := errfile t;
     outstream := outstream t; errstream := errstream t;
     verbose := verbose t; print_out := print_out t; inline := inline t;
     annotate_lines := annotate_lines t; buffer_lines := buffer_lines t;
     inline_stdout := inline_stdout t |}.

Definition set_errorbuffer (v : list byte) (t : Task) : Task :=
  {| exitstatus := exitstatus t; host := host t; host_b := host_b t;
     pretty_host := pretty_host t; port := port t; cmd := cmd t;
     proc := proc t; writer := writer t; timestamp := timestamp t;
     failures := failures t; killed := killed t;
     inputbuffer := inputbuffer t; byteswritten := byteswritten t;
     outputbuffer := outputbuffer t; fd_to_buffer := fd_to_buffer t;
     errorbuffer := v; stdin := stdin t; stdout := stdout t;
     stderr := stderr t; outfile := outfile t; errfile := errfile t;
     outstream := outstream t; errstream := errstream t;
     verbose := verbose t; print_out := print_out t; inline := inline t;
     annotate_lines := annotate_lines t; buffer_lines := buffer_lines t;
     inline_stdout := inline_stdout t |}.

Definition set_stdin (v : option Z) (t : Task) : Task :=
  {| exitstatus := exitstatus t; host := host t; host_b := host_b t;
     pretty_host := pretty_host t; port := port t; cmd := cmd t;
     proc := proc t; writer := writer t; timestamp := timestamp t;
     failures := failures t; killed := killed t;
     inputbuffer := inputbuffer t; byteswritten := byteswritten t;
     outputbuffer := outputbuffer t; fd_to_buffer := fd_to_buffer t;
     errorbuffer := errorbuffer t; stdin := v; stdout := stdout t;
     stderr := stderr t; outfile := outfile t; errfile := errfile t;
     outstream := outstream t; errstream := errstream t;
     verbose := verbose t; print_out := print_out t; inline := inline t;
     annotate_lines := annotate_lines t; buffer_lines := buffer_lines t;
     inline_stdout := inline_stdout t |}.

Definition set_stdout (v : option Z) (t : Task) : Task :=
  {| exitstatus := exitstatus t; host := host t; host_b := host_b t;
     pretty_host := pretty_host t; port := port t; cmd := cmd t;
     proc := proc t; writer := writer t; timestamp := timestamp t;
     failures := failures t; killed := killed t;
     inputbuffer := inputbuffer t; byteswritten := byteswritten t;
     outputbuffer := outputbuffer t; fd_to_buffer := fd_to_buffer t;
     errorbuffer := errorbuffer t; stdin := stdin t; stdout := v;
     stderr := stderr t; outfile := outfile t; errfile := errfile t;
     outstream := outstream t; errstream := errstream t;
     verbose := verbose t; print_out := print_out t; inline := inline t;
     annotate_lines := annotate_lines t; buffer_lines := buffer_lines t;
     inline_stdout := inline_stdout t |}.

Definition set_stderr (v : option Z) (t : Task) : Task :=
  {| exitstatus := exitstatus t; host := host t; host_b := host_b t;
     pretty_host := pretty_host t; port := port t; cmd := cmd t;
     proc := proc t; writer := writer t; timestamp := timestamp t;
     failures := failures t; killed := killed t;
     inputbuffer := inputbuffer t; byteswritten := byteswritten t;
     outputbuffer := outputbuffer t; fd_to_buffer := fd_to_buffer t;
     errorbuffer := errorbuffer t; stdin := stdin t; stdout := stdout t;
     stderr := v; outfile := outfile t; errfile := errfile t;
     outstream := outstream t; errstream := errstream t;
     verbose := verbose t; print_out := print_out t; inline := inline t;
     annotate_lines := annotate_lines t; buffer_lines := buffer_lines t;
     inline_stdout := inline_stdout t |}.

Definition set_outfile (v : option Z) (t : Task) : Task :=
  {| exitstatus := exitstatus t; host := host t; host_b := host_b t;
     pretty_host := pretty_host t; port := port t; cmd := cmd t;
     proc := proc t; writer := writer t; timestamp := timestamp t;
     failures := failures t; killed := killed t;
     inputbuffer := inputbuffer t; byteswritten := byteswritten t;
     outputbuffer := outputbuffer t; fd_to_buffer := fd_to_buffer t;
     errorbuffer := errorbuffer t; stdin := stdin t; stdout := stdout t;
     stderr := stderr t; outfile := v; errfile := errfile t;
     outstream := outstream t; errstream := errstream t;
     verbose := verbose t; print_out := print_out t; inline := inline t;
     annotate_lines := annotate_lines t; buffer_lines := buffer_lines t;
     inline_stdout := inline_stdout t |}.

Definition set_errfile (v : option Z) (t : Task) : Task :=
  {| exitstatus := exitstatus t; host := host t; host_b := host_b t;
     pretty_host := pretty_host t; port := port t; cmd := cmd t;
     proc := proc t; writer := writer t; timestamp := timestamp t;
     failures := failures t; killed := killed t;
     inputbuffer := inputbuffer t; byteswritten := byteswritten t;
     outputbuffer := outputbuffer t; fd_to_buffer := fd_to_buffer t;
     errorbuffer := errorbuffer t; stdin := stdin t; stdout := stdout t;
     stderr := stderr t; outfile := outfile t; errfile := v;
     outstream := outstream t; errstream := errstream t;
     verbose := verbose t; print_out := print_out t; inline := inline t;
     annotate_lines := annotate_lines t; buffer_lines := buffer_lines t;
     inline_stdout := inline_stdout t |}.

(** ** The method monad *)

(** An exception that no handler of the module catches. *)
Inductive exn : Type :=
| TypeError (what : string).

Inductive res (A : Type) : Type :=
| Ok (a : A)
| Exc (e : exn).
Arguments Ok {A} a.
Arguments Exc {A} e.

(** A method body: from the task and the trace so far to a result, the
    task as mutated and the extended trace.  Mutations made before an
    exception is raised remain. *)
Definition M (A : Type) : Type :=
  Task -> list event -> res A * Task * list event.

Definition ret {A : Type} (a : A) : M A := fun t tr => (Ok a, t, tr).

Definition bind {A B : Type} (m : M A) (k : A -> M B) : M B :=
  fun t tr =>
    match m t tr with
    | (Ok a, t', tr') => k a t' tr'
    | (Exc e, t', tr') => (Exc e, t', tr')
    end.

Definition raise {A : Type} (e : exn) : M A := fun t tr => (Exc e, t, tr).
Definition get : M Task := fun t tr => (Ok t, t, tr).
Definition modify (f : Task -> Task) : M unit := fun t tr => (Ok tt, f t, tr).
Definition emit (e : event) : M unit := fun t tr => (Ok tt, t, tr ++ [e]).

(** [if cond: body] *)
Definition when (cond : bool) (body : M unit) : M unit :=
  if cond then body else ret tt.

Declare Scope M_scope.
Delimit Scope M_scope with M.
Notation "x <- m ;; k" := (bind m (fun x => k))
  (at level 100, m at next level, right associativity) : M_scope.
Notation "m ;; k" := (bind m (fun _ => k))
  (at level 100, right associativity) : M_scope.
Open Scope M_scope.

(** Observations of a finished call. *)
Definition result_of {A : Type} (o : res A * Task * list event) : res A :=
  fst (fst o).
Definition task_of {A : Type} (o : res A * Task * list event) : Task :=
  snd (fst o).
Definition trace_of {A : Type} (o : res A * Task * list event) : list event :=
  snd o.

(** A call on a fresh trace. *)
Definition call {A : Type} (m : M A) (t : Task) : res A * Task * list event :=
  m t [].

Definition is_set {A : Type} (o : option A) : bool :=
  match o with Some _ => true | None => false end.

(** ** The module's tables *)

(** A bytes format with the two named conversions of the source. *)
Inductive fmt_item : Type :=
| FHost
| FLine
| FLit (data : list byte).

Definition format_bytes (sformat : list fmt_item) (host_b line : list byte)
  : list byte :=
  concat (map (fun it => match it with
                         | FHost => host_b
                         | FLine => line
                         | FLit data => data
                         end) sformat).

Section WithRuntime.

Context (rt : Runtime).

Let pal := palette rt.

(** ['%(host)s ' + marker + ' %(line)s'], encoded. *)
Definition output_format (marker : string) : list fmt_item :=
  [FHost; FLit (Py.encode (" " +:+ marker +:+ " ")); FLine].

Definition OUTPUT_FORMATS : gmap string (list fmt_item) :=
  list_to_map
    [ ("err"%string, output_format (Color.B pal (Color.r pal "=>")));
      ("out"%string, output_format (Color.b pal (Color.g pal "->")));
      (""%string, output_format (Color.B pal (Color.b pal "->"))) ].

Definition UNTERMINATED_LINE_MARK : list byte :=
  Py.encode (Color.b pal (Color.y pal Py.backslash)).

(** [OUTPUT_FORMATS.get(atype) or OUTPUT_FORMATS['']]; no entry is empty,
    so [or] only replaces a missing key. *)
Definition format_for (atype : string) : list fmt_item :=
  match OUTPUT_FORMATS !! atype with
  | Some f => f
  | None => output_format (Color.B pal (Color.b pal "->"))
  end.

(** ** Construction *)

Definition flag (o : option bool) (dflt : bool) : bool :=
  match o with Some v => v | None => dflt end.

(** [Task.__init__].  ['@'.join((user, ...))] raises [TypeError] when
    [user] is [None]. *)
Definition init (host : string) (port : option string)
    (user : option string) (cmd : list string) (opts : Options)
    (stdin : option (list byte)) : res Task :=
  let pretty0 := host in
  let pretty1 :=
    if decide (user <> opt_user opts) then
      match user with
      | Some u => Ok (Py.join "@" [u; pretty0])
      | None => Exc (TypeError "sequence item 0: expected str instance")
      end
    else Ok pretty0 in
  match pretty1 with
  | Exc e => Exc e
  | Ok pretty1 =>
      let pretty2 :=
        if Py.truthy_str port
        then Py.join ":" [pretty1; default EmptyString port]
        else pretty1 in
      Ok {| exitstatus := None;
            host := host;
            host_b := Py.encode host;
            pretty_host := pretty2;
            port := port;
            cmd := cmd;
            proc := None;
            writer := None;
            timestamp := None;
            failures := [];
            killed := false;
            inputbuffer := stdin;
            byteswritten := 0;
            outputbuffer := [];
            fd_to_buffer := ∅;
            errorbuffer := [];
            stdin := None;
            stdout := None;
            stderr := None;
            outfile := None;
            errfile := None;
            outstream := if py3 rt then SysStdoutBuffer else SysStdout;
            errstream := if py3 rt then SysStderrBuffer else SysStderr;
            verbose := opt_verbose opts;
            print_out := flag (opt_print_out opts) false;
            inline := flag (opt_inline opts) false;
            annotate_lines := negb (flag (opt_no_annotate_lines opts) false);
            buffer_lines := negb (flag (opt_no_buffer_lines opts) false);
            inline_stdout := flag (opt_inline_stdout opts) false |}
  end.

(** ** Small steps shared by the methods *)

Definition append_failure (msg : string) : M unit :=
  modify (fun t => set_failures (failures t ++ [msg]) t).

(** [sink.write(v)]: a binary buffer refuses text.  Bytes are taken by
    the binary buffers of Python 3 and by the streams of Python 2, the
    only sinks [init] assigns. *)
Definition sink_write (s : stream) (v : pyval) : M unit :=
  match v with
  | PText _ =>
      if is_binary s
      then raise (TypeError "a bytes-like object is required, not 'str'")
      else emit (ESinkWrite s (bytes_of v))
  | PBytes data => emit (ESinkWrite s data)
  end.

Definition sink_flush (s : stream) : M unit := emit (ESinkFlush s).

(** ** Supervisor *)

(** [Task.start].  The spawned child, the files the writer opens, the
    inherited environment, the askpass path and the clock are given. *)
Definition child_environ (os_environ : gmap string string) (nodenum : Z)
    (askpass_exe : string) (askpass_socket : option string) (t : Task)
  : gmap string string :=
  let e1 := <["PSSH_NODENUM"%string := Py.str_of_int nodenum]> os_environ in
  let e2 := <["PSSH_HOST"%string := host t]> e1 in
  let e3 := <["SSH_ASKPASS"%string := askpass_exe]> e2 in
  let e4 := if Py.truthy_str askpass_socket
            then <["PSSH_ASKPASS_SOCKET"%string :=
                    default EmptyString askpass_socket]> e3
            else e3 in
  let e5 := if verbose t
            then <["PSSH_ASKPASS_VERBOSE"%string := "1"%string]> e4
            else e4 in
  match e5 !! "DISPLAY"%string with
  | Some _ => e5
  | None => <["DISPLAY"%string := "pssh-gibberish"%string]> e5
  end.

Definition start (nodenum : Z) (w : option Writer)
    (askpass_socket : option string)
    (os_environ : gmap string string) (askpass_exe : string)
    (files : Z * Z) (child : Popen) (now : Z) : M unit :=
  modify (set_writer w);;
  match w with
  | Some wr =>
      t <- get;;
      emit (EWriterOpen wr (pretty_host t));;
      modify (set_outfile (Some (fst files)));;
      modify (set_errfile (Some (snd files)))
  | None => ret tt
  end;;
  t <- get;;
  emit (EPopen (cmd t)
          (child_environ os_environ nodenum askpass_exe askpass_socket t));;
  modify (set_proc (Some child));;
  modify (set_timestamp (Some now));;
  (if match inputbuffer t with Some buf => Py.truthy buf | None => false end
   then modify (set_stdin (Some (proc_stdin child)));;
        emit (ERegisterWrite (proc_stdin child) CbStdin)
   else emit (EClose (proc_stdin child)));;
  modify (set_stdout (Some (proc_stdout child)));;
  emit (ERegisterRead (proc_stdout child) CbStdout);;
  modify (set_stderr (Some (proc_stderr child)));;
  emit (ERegisterRead (proc_stderr child) CbStderr).

(** [Task._kill]: an [OSError] of [os.kill] is swallowed, so the call
    has the same effect on the task whether or not the signal was
    delivered. *)
Definition _kill : M unit :=
  t <- get;;
  match proc t with
  | Some p =>
      emit (EKill (- pid p) SIGKILL);;
      modify (set_killed true)
  | None => ret tt
  end.

Definition timedout : M unit :=
  t <- get;;
  when (negb (killed t))
    (_kill;; append_failure "Timed out").

Definition interrupted : M unit :=
  t <- get;;
  when (negb (killed t))
    (_kill;; append_failure "Interrupted").

Definition cancel : M unit := append_failure "Cancelled".

(** [Task.elapsed], with the clock reading given; [None] stands for the
    [TypeError] of subtracting an unset timestamp. *)
Definition elapsed (now : Z) (t : Task) : option Z :=
  match timestamp t with
  | Some t0 => Some (now - t0)
  | None => None
  end.

(** [Task.running], with the answer of [proc.poll()] given.  The result
    is [None] where the method falls off its end. *)
Definition running (poll : option Z) : M (option bool) :=
  t <- get;;
  if is_set (stdin t) || is_set (stdout t) || is_set (stderr t)
  then ret (Some true)
  else
    match proc t with
    | Some p =>
        emit (EPoll (pid p));;
        modify (set_exitstatus poll);;
        match poll with
        | None =>
            if killed t
            then modify (set_exitstatus (Some (- SIGKILL)));;
                 ret (Some false)
            else ret (Some true)
        | Some code =>
            (if code <? 0
             then append_failure
                    ("Killed by signal " +:+ Py.str_of_int (- code))
             else if code >? 0
             then append_failure
                    ("Exited with error code " +:+ Py.str_of_int code)
             else ret tt);;
            modify (set_proc None);;
            ret (Some false)
        end
    | None => ret None
    end.

(** [Task.log_exception]. *)
Definition log_exception (e : OSError) : M unit :=
  t <- get;;
  let exc :=
    if verbose t
    then ("Exception: " +:+ exc_type e +:+ ", " +:+ str_of_exc e +:+ ", "
          +:+ exc_traceback e)%string
    else str_of_exc e in
  append_failure exc.

(** ** Closing a slot *)

Definition close_stdin : M unit :=
  t <- get;;
  match stdin t with
  | Some fd =>
      emit (EUnregister fd);;
      emit (EClose fd);;
      modify (set_stdin None)
  | None => ret tt
  end.

Definition close_stdout : M unit :=
  t <- get;;
  match stdout t with
  | Some fd =>
      emit (EUnregister fd);;
      emit (EClose fd);;
      modify (set_stdout None)
  | None => ret tt
  end;;
  t <- get;;
  match outfile t with
  | Some h =>
      emit (EWriterClose h);;
      modify (set_outfile None)
  | None => ret tt
  end.

Definition close_stderr : M unit :=
  t <- get;;
  match stderr t with
  | Some fd =>
      emit (EUnregister fd);;
      emit (EClose fd);;
      modify (set_stderr None)
  | None => ret tt
  end;;
  t <- get;;
  match errfile t with
  | Some h =>
      emit (EWriterClose h);;
      modify (set_errfile None)
  | None => ret tt
  end.

(** ** Line framer *)

(** What the module passes as [buf]: bytes read from a pipe, or the
    empty text literal [''] (in [handle_stderr]). *)
Inductive framer_buf : Type :=
| FBytes (data : list byte)
| FEmptyText.

Definition framer_bytes (buf : framer_buf) : list byte :=
  match buf with
  | FBytes data => data
  | FEmptyText => []
  end.

(** [buf_pre + buf] for a non-empty bytes [buf_pre]: on Python 3 bytes
    and text do not concatenate. *)
Definition add_pre (buf_pre : list byte) (buf : framer_buf) : M framer_buf :=
  match buf with
  | FBytes data => ret (FBytes (buf_pre ++ data))
  | FEmptyText =>
      if py3 rt
      then raise (TypeError "can't concat str to bytes")
      else ret (FBytes buf_pre)
  end.

Definition set_retained (key : Z * string) (frag : list byte) : M unit :=
  modify (fun t => set_fd_to_buffer (<[key := frag]> (fd_to_buffer t)) t).

(** The body of the [enumerate] loop: the annotation, and the mark on
    the last line when the lines are unfinished. *)
Definition outline_of (annotate : bool) (sformat : list fmt_item)
    (hostb : list byte) (unfinished : bool) (count : nat)
    (idx : nat) (line : list byte) : list byte :=
  let outline :=
    if annotate then format_bytes sformat hostb line else line in
  if Nat.eqb idx (count - 1)
  then if unfinished then outline ++ UNTERMINATED_LINE_MARK else outline
  else outline.

(** [Task.print_annotated_lines].  The empty text returned when no line
    is left is rendered as the empty bytes; no caller uses the result. *)
Definition print_annotated_lines (buf : framer_buf) (atype : string)
    (fd : option Z) (force_finish : bool) : M (list byte) :=
  buf <- match fd with
         | Some d =>
             t <- get;;
             let buf_pre := default [] (fd_to_buffer t !! (d, atype)) in
             set_retained (d, atype) [];;
             if Py.truthy buf_pre then add_pre buf_pre buf else ret buf
         | None => ret buf
         end;;
  let data := framer_bytes buf in
  let lines_are_unfinished := Py.truthy data && Py.last_is_not_LF data in
  let lines := Py.splitlines data in
  t <- get;;
  framed <-
    match fd with
    | Some d =>
        if lines_are_unfinished && buffer_lines t && negb force_finish
        then set_retained (d, atype) (Py.last_line lines);;
             ret (Py.but_last lines, false)
        else ret (lines, lines_are_unfinished)
    | None => ret (lines, lines_are_unfinished)
    end;;
  let '(lines, lines_are_unfinished) := framed in
  match lines with
  | [] => ret []
  | _ :: _ =>
      let sformat := format_for atype in
      let outs :=
        imap (outline_of (annotate_lines t) sformat (host_b t)
                lines_are_unfinished (length lines)) lines in
      let out := Py.bjoin [Py.LF] outs ++ [Py.LF] in
      let outbuf := if String.eqb atype "err" then errstream t
                    else outstream t in
      sink_write outbuf (PBytes out);;
      sink_flush outbuf;;
      ret out
  end.

(** ** Stream handlers *)

(** The reactor calls a handler with the descriptor; the answer of the
    one system call the handler makes is given.  Collaborator calls
    (reactor, writer, sinks, [close]) are taken not to raise. *)

(** [Task.handle_stdin].  [len(None)] raises [TypeError]. *)
Definition handle_stdin (fd : Z) (written : io_result Z) : M unit :=
  t <- get;;
  let start := byteswritten t in
  match inputbuffer t with
  | None => raise (TypeError "object of type 'NoneType' has no len()")
  | Some input =>
      if start <? Py.len input
      then
        let chunk := Py.slice input start (start + BUFFER_SIZE) in
        emit (EOsWrite fd chunk);;
        match written with
        | IoOk n => modify (set_byteswritten (start + n))
        | IoErr e =>
            when (negb (errno e =? EINTR))
              (close_stdin;; log_exception e)
        end
      else close_stdin
  end.

(** [Task.handle_stdout]; the branch under [else] of [if True] is dead. *)
Definition handle_stdout (fd : Z) (read : io_result (list byte)) : M unit :=
  emit (EOsRead fd BUFFER_SIZE);;
  match read with
  | IoOk buf =>
      t <- get;;
      if Py.truthy buf
      then
        when (inline t || inline_stdout t)
          (modify (fun t => set_outputbuffer (outputbuffer t ++ buf) t));;
        match outfile t with
        | Some h => emit (EWriterWrite h buf)
        | None => ret tt
        end;;
        when (print_out t)
          (print_annotated_lines (FBytes buf) "out" (Some fd) false;;
           ret tt)
      else
        when (annotate_lines t)
          (print_annotated_lines (FBytes []) "out" (Some fd) true;;
           ret tt);;
        close_stdout
  | IoErr e =>
      when (negb (errno e =? EINTR))
        (close_stdout;; log_exception e)
  end.

(** [Task.handle_stderr]. *)
Definition handle_stderr (fd : Z) (read : io_result (list byte)) : M unit :=
  emit (EOsRead fd BUFFER_SIZE);;
  match read with
  | IoOk buf =>
      t <- get;;
      if Py.truthy buf
      then
        when (inline t)
          (modify (fun t => set_errorbuffer (errorbuffer t ++ buf) t));;
        match errfile t with
        | Some h => emit (EWriterWrite h buf)
        | None => ret tt
        end;;
        when (print_out t)
          (when (annotate_lines t)
             (print_annotated_lines (FBytes buf) "err" (Some fd) false;;
              ret tt))
      else
        when (annotate_lines t)
          (print_annotated_lines FEmptyText "err" (Some fd) true;;
           ret tt);;
        close_stderr
  | IoErr e =>
      when (negb (errno e =? EINTR))
        (close_stdin;; log_exception e)
  end.

(** ** Reporter *)

(** The locals [msg] and [stderr] of [Task.report], given the answer of
    [color.has_colors] and the time of day. *)
Definition report_msg (n : Z) (has_colors : bool) (tstamp : string)
    (t : Task) : string :=
  let error := Py.join ", " (failures t) in
  let bracket (s : string) : string := ("[" +:+ s +:+ "]")%string in
  let progress :=
    if has_colors
    then Color.c pal (bracket (Color.B pal (Py.str_of_int n)))
    else bracket (Py.str_of_int n) in
  let success :=
    if has_colors then Color.g pal (bracket (Color.B pal "SUCCESS"))
    else "[SUCCESS]"%string in
  let failure :=
    if has_colors then Color.r pal (bracket (Color.B pal "FAILURE"))
    else "[FAILURE]"%string in
  let error := if has_colors then Color.r pal (Color.B pal error) else error in
  let host := pretty_host t in
  match failures t with
  | _ :: _ => Py.join " " [progress; tstamp; failure; host; error]
  | [] => Py.join " " [progress; tstamp; success; host]
  end.

Definition report_stderr_mark (has_colors : bool) : string :=
  if has_colors then Color.r pal "Stderr: " else "Stderr: "%string.

(** [Task.report]. *)
Definition report (n : Z) (has_colors : bool) (tstamp : string) : M unit :=
  t <- get;;
  let msg := report_msg n has_colors tstamp t in
  let stderr_mark := report_stderr_mark has_colors in
  sink_write (errstream t) (PBytes (Py.encode msg ++ [Py.LF]));;
  sink_flush (errstream t);;
  when (Py.truthy (outputbuffer t))
    (sink_flush (outstream t);;
     sink_write (outstream t) (PBytes (outputbuffer t));;
     sink_flush (outstream t));;
  when (Py.truthy (errorbuffer t))
    (sink_write (outstream t) (PText stderr_mark);;
     sink_flush (outstream t);;
     sink_write (outstream t) (PBytes (errorbuffer t))).

End WithRuntime.

(** ** A plain runtime *)

(** Modelled from the spec: the colour helpers of [psshlib.color], which is
    not part of the sources at hand.  Scenarios A and B of the
    specification show the annotated lines without escapes
    (["<host> -> hello"], and the same with a bare backslash behind
    an unterminated line), i.e. the helpers as the identity. *)
Definition plain : Color.Palette :=
  {| Color.B := fun s => s; Color.r := fun s => s; Color.g := fun s => s;
     Color.b := fun s => s; Color.y := fun s => s; Color.c := fun s => s |}.

Definition python2 : Runtime := {| palette := plain; py3 := false |}.
Definition python3 : Runtime := {| palette := plain; py3 := true |}.

(** ** The task as a state machine *)

(** The operations a driver, the reactor or another method can invoke on
    a task, with the answers of the outside world they depend on. *)
Inductive method : Type :=
| MStart (nodenum : Z) (w : option Writer) (askpass_socket : option string)
    (os_environ : gmap string string) (askpass_exe : string)
    (files : Z * Z) (child : Popen) (now : Z)
| MKill
| MTimedout
| MInterrupted
| MCancel
| MRunning (poll : option Z)
| MHandleStdin (fd : Z) (written : io_result Z)
| MCloseStdin
| MHandleStdout (fd : Z) (read : io_result (list byte))
| MCloseStdout
| MHandleStderr (fd : Z) (read : io_result (list byte))
| MCloseStderr
| MPrintAnnotatedLines (data : list byte) (atype : string) (fd : option Z)
    (force_finish : bool)
| MLogException (e : OSError)
| MReport (n : Z) (has_colors : bool) (tstamp : string).

Definition invoke (rt : Runtime) (m : method) : M unit :=
  match m with
  | MStart nodenum w sock env exe files child now =>
      start nodenum w sock env exe files child now
  | MKill => _kill
  | MTimedout => timedout
  | MInterrupted => interrupted
  | MCancel => cancel
  | MRunning poll => running poll;; ret tt
  | MHandleStdin fd written => handle_stdin fd written
  | MCloseStdin => close_stdin
  | MHandleStdout fd read => handle_stdout rt fd read
  | MCloseStdout => close_stdout
  | MHandleStderr fd read => handle_stderr rt fd read
  | MCloseStderr => close_stderr
  | MPrintAnnotatedLines data atype fd force_finish =>
      print_annotated_lines rt (FBytes data) atype fd force_finish;; ret tt
  | MLogException e => log_exception e
  | MReport n has_colors tstamp => report rt n has_colors tstamp
  end.

(** A history of invocations; the task object outlives an exception that
    escapes one of them. *)
Fixpoint run_methods (rt : Runtime) (ms : list method) (t : Task)
    (tr : list event) : Task * list event :=
  match ms with
  | [] => (t, tr)
  | m :: rest =>
      let o := invoke rt m t tr in
      run_methods rt rest (task_of o) (trace_of o)
  end.

(** ** Driving the input feeder *)

(** The answer of an [os.write] that transfers all of the offered chunk. *)
Definition full_write (t : Task) : io_result Z :=
  IoOk (Py.len (Py.slice (default [] (inputbuffer t)) (byteswritten t)
                  (byteswritten t + BUFFER_SIZE))).

(** One readiness callback of the input feeder, answered by a full write. *)
Definition feed (fd : Z) : M unit :=
  t <- get;;
  handle_stdin fd (full_write t).

(** The task and the trace after each of [n] successive callbacks. *)
Fixpoint feed_history (n : nat) (fd : Z) (t : Task) (tr : list event)
  : list (Task * list event) :=
  match n with
  | O => []
  | S k =>
      let o := feed fd t tr in
      (task_of o, trace_of o) :: feed_history k fd (task_of o) (trace_of o)
  end.

(** ** Reading a trace *)

Definition stream_eqb (a b : stream) : bool :=
  match a, b with
  | SysStdout, SysStdout | SysStderr, SysStderr
  | SysStdoutBuffer, SysStdoutBuffer | SysStderrBuffer, SysStderrBuffer => true
  | _, _ => false
  end.

(** Every write to a sink is directly followed by a flush of that sink. *)
Fixpoint all_flushed (tr : list event) : bool :=
  match tr with
  | [] => true
  | ESinkWrite s _ :: rest =>
      match rest with
      | ESinkFlush s' :: _ => stream_eqb s s' && all_flushed rest
      | _ => false
      end
  | _ :: rest => all_flushed rest
  end.

Definition is_os_write (e : event) : bool :=
  match e with EOsWrite _ _ => true | _ => false end.

(** ** Driving the framer *)

(** The calls the drainers make on the framer for one descriptor and
    kind: one call per chunk read, then the forced call on the empty
    chunk at end-of-file.  The result is what each call returned. *)
Fixpoint frame_stream (rt : Runtime) (atype : string) (fd : Z)
    (chunks : list (list byte)) : M (list (list byte)) :=
  match chunks with
  | [] =>
      out <- print_annotated_lines rt (FBytes []) atype (Some fd) true;;
      ret [out]
  | chunk :: rest =>
      out <- print_annotated_lines rt (FBytes chunk) atype (Some fd) false;;
      outs <- frame_stream rt atype fd rest;;
      ret (out :: outs)
  end.

(** * Observations and sample tasks *)

(** ** Observations on byte sequences *)

Definition no_linebreak (seg : list byte) : bool :=
  forallb (fun c => negb (Py.is_linebreak c)) seg.

Definition cr_free (l : list byte) : bool :=
  forallb (fun c => negb (Py.is_CR c)) l.

(** The last byte of [buf] is a line terminator. *)
Definition ends_with_linebreak (buf : list byte) : bool :=
  match rev buf with
  | [] => false
  | c :: _ => Py.is_linebreak c
  end.

(** ** Observations on the framer *)

(** The fragment retained for a descriptor and kind ([b''] when none). *)
Definition retained (t : Task) (fd : option Z) (atype : string) : list byte :=
  match fd with
  | Some d => default [] (fd_to_buffer t !! (d, atype))
  | None => []
  end.

(** The sink of a kind. *)
Definition sink_for (t : Task) (atype : string) : stream :=
  if String.eqb atype "err" then errstream t else outstream t.

(** A line as the loop renders it before the mark. *)
Definition annotated (rt : Runtime) (t : Task) (atype : string)
    (line : list byte) : list byte :=
  if annotate_lines t
  then format_bytes (format_for rt atype) (host_b t) line
  else line.

(** The list [outs] for a non-empty [lines]: every line rendered, the
    mark behind the last one when the lines are unfinished. *)
Definition emitted (rt : Runtime) (t : Task) (atype : string)
    (lines : list (list byte)) (unfinished : bool) : list (list byte) :=
  map (annotated rt t atype) (Py.but_last lines)
  ++ [annotated rt t atype (Py.last_line lines)
      ++ (if unfinished then UNTERMINATED_LINE_MARK rt else [])].

(** What one call writes for a group of raw lines. *)
Definition render (rt : Runtime) (t : Task) (atype : string)
    (group : list (list byte) * bool) : list byte :=
  match fst group with
  | [] => []
  | _ :: _ =>
      Py.bjoin [Py.LF] (emitted rt t atype (fst group) (snd group)) ++ [Py.LF]
  end.

(** The bytes that a group of raw lines stands for: every line but the
    last with its LF, the last one with its LF unless it is marked as
    unterminated. *)
Definition rebuild (lines : list (list byte)) (marked : bool) : list byte :=
  match lines with
  | [] => []
  | _ :: _ =>
      concat (map (fun l => l ++ [Py.LF]) (Py.but_last lines))
      ++ Py.last_line lines ++ (if marked then [] else [Py.LF])
  end.

(** ** Frame condition *)

(** A computation that leaves the display name alone. *)
Definition keeps_name {A : Type} (m : M A) : Prop :=
  forall t tr, pretty_host (task_of (m t tr)) = pretty_host t.

(** ** Sample options, children and errors *)

Definition default_options : Options :=
  {| opt_user := None; opt_verbose := false; opt_print_out := None;
     opt_inline := None; opt_no_annotate_lines := None;
     opt_no_buffer_lines := None; opt_inline_stdout := None |}.

(** Options that print what is read, annotated and line-buffered. *)
Definition print_options : Options :=
  {| opt_user := None; opt_verbose := false; opt_print_out := Some true;
     opt_inline := None; opt_no_annotate_lines := None;
     opt_no_buffer_lines := None; opt_inline_stdout := None |}.

(** Options that print what is read as it comes: no annotation, no line
    buffering. *)
Definition raw_options : Options :=
  {| opt_user := None; opt_verbose := false; opt_print_out := Some true;
     opt_inline := None; opt_no_annotate_lines := Some true;
     opt_no_buffer_lines := Some true; opt_inline_stdout := None |}.

(** The child every sample task is started with. *)
Definition child : Popen :=
  {| pid := 4242; proc_stdin := 3; proc_stdout := 4; proc_stderr := 5 |}.


Definition EIO_error : OSError :=
  {| errno := 5; strerror := "Input/output error";
     exc_type := "<class 'OSError'>"; exc_traceback := "[]" |}.

Definition EBADF_error : OSError :=
  {| errno := 9; strerror := "Bad file descriptor";
     exc_type := "<class 'OSError'>"; exc_traceback := "[]" |}.

(** ** Sample tasks *)

(** A task as [init] leaves it: not started, no process handle. *)
Definition unstarted : Task :=
  {| exitstatus := None; host := "web1"; host_b := Py.encode "web1";
     pretty_host := "web1"; port := None;
     cmd := ["ssh"; "web1"; "uptime"]%string;
     proc := None; writer := None; timestamp := None; failures := [];
     killed := false; inputbuffer := None; byteswritten := 0;
     outputbuffer := []; fd_to_buffer := ∅; errorbuffer := [];
     stdin := None; stdout := None; stderr := None;
     outfile := None; errfile := None;
     outstream := SysStdout; errstream := SysStderr;
     verbose := false; print_out := false; inline := false;
     annotate_lines := true; buffer_lines := true; inline_stdout := false |}.

(** The task a successful construction yields. *)
Definition constructed (r : res Task) : Task :=
  match r with
  | Ok t => t
  | Exc _ => unstarted
  end.

(** [start] without a writer, in an empty environment. *)
Definition started (t : Task) : Task :=
  task_of (call (start 0 None None ∅ "/usr/libexec/pssh-askpass" (0, 0)
                   child 0) t).

(** A task whose pipes have reached end-of-file: slots closed, process
    handle present. *)
Definition drained : Task :=
  set_stderr None (set_stdout None (started unstarted)).

(** A task in mid-run: started with input to feed, the three slots
    open on the child's pipes. *)
Definition draining : Task :=
  started
    (constructed
       (init python2 "web1" None None ["ssh"; "web1"; "cat"]%string
          default_options (Some (Py.encode "payload")))).


(** A finished task with captured output and captured error. *)
Definition captured : Task :=
  set_errorbuffer (Py.encode "warn")
    (set_outputbuffer (Py.encode "up 3 days") unstarted).

(** The same under Python 3, where [init] assigns the binary buffers. *)
Definition captured3 : Task :=
  set_errorbuffer (Py.encode "warn")
    (set_outputbuffer (Py.encode "up 3 days")
       (constructed
          (init python3 "web1" None None ["ssh"; "web1"; "uptime"]%string
             default_options None))).

(** A 200000-byte input, and a task constructed with it. *)
Definition big_input : list byte := repeat "a"%byte (Z.to_nat 200000).

Definition big_task : Task :=
  constructed
    (init python2 "web1" None None ["ssh"; "web1"; "cat"]%string
       default_options (Some big_input)).

(** A started task that prints what it reads, with ["ab"] held back for
    descriptor 4. *)
Definition printing : Task :=
  set_fd_to_buffer (<[(4, "out"%string) := Py.encode "ab"]> ∅)
    (started
       (constructed
          (init python2 "web1" None None ["ssh"; "web1"; "uptime"]%string
             print_options None))).

(** A started task that prints raw lines, unbuffered. *)
Definition raw_printing : Task :=
  started
    (constructed
       (init python2 "web1" None None ["ssh"; "web1"; "uptime"]%string
          raw_options None)).

(** ** Sample chunks *)

Definition chunk_c_de : list byte :=
  Py.encode "c" ++ [Py.LF] ++ Py.encode "de".

Definition chunk_two_lines : list byte :=
  Py.encode "up" ++ [Py.LF] ++ Py.encode "down" ++ [Py.LF].

Definition chunk_abc_cr : list byte := Py.encode "abc" ++ [Py.CR].
Definition chunk_def_lf : list byte := Py.encode "def" ++ [Py.LF].

(** ** Observations on histories *)

(** A state is the task together with the trace so far. *)
Definition state : Type := Task * list event.

(** Every call of [m] takes a state to one that [R] relates to it. *)
Definition steps_in (R : state -> state -> Prop) {A : Type} (m : M A) : Prop :=
  forall t tr, R (t, tr) (task_of (m t tr), trace_of (m t tr)).

(** The failure list is only appended to. *)
Definition failures_grow (s s' : state) : Prop :=
  exists more, failures (fst s') = failures (fst s) ++ more.

(** A set [killed] flag stays set. *)
Definition killed_stays (s s' : state) : Prop :=
  killed (fst s) = true -> killed (fst s') = true.

(** A null slot stays null. *)
Definition null_slots_stay (s s' : state) : Prop :=
  (stdin (fst s) = None -> stdin (fst s') = None) /\
  (stdout (fst s) = None -> stdout (fst s') = None) /\
  (stderr (fst s) = None -> stderr (fst s') = None).

(** Without a process handle, the handle stays absent and the exit status
    is not touched. *)
Definition reaped_stays (s s' : state) : Prop :=
  proc (fst s) = None ->
  proc (fst s') = None /\ exitstatus (fst s') = exitstatus (fst s).

Definition is_kill (e : event) : bool :=
  match e with EKill _ _ => true | _ => false end.

(** The trace gains no kill event. *)
Definition no_new_kill (s s' : state) : Prop :=
  List.filter is_kill (snd s') = List.filter is_kill (snd s).

Definition is_start (m : method) : bool :=
  match m with MStart _ _ _ _ _ _ _ _ => true | _ => false end.

(** The signal [_kill] sends on a task: [SIGKILL] to the process group of
    its child, when it has one. *)
Definition kill_of (t : Task) : list event :=
  match proc t with
  | Some p => [EKill (- pid p) SIGKILL]
  | None => []
  end.

(** The kill events one invocation is to add. *)
Definition kills_of (m : method) (t : Task) : list event :=
  match m with
  | MKill => kill_of t
  | MTimedout | MInterrupted => if killed t then [] else kill_of t
  | _ => []
  end.

(** ** Observations on the input feed *)

(** The bytes an [os.write] event offers. *)
Definition chunk_of (e : event) : list byte :=
  match e with
  | EOsWrite _ chunk => chunk
  | _ => []
  end.

(** The slice the feeder offers next. *)
Definition offered_chunk (t : Task) : list byte :=
  Py.slice (default [] (inputbuffer t)) (byteswritten t)
    (byteswritten t + BUFFER_SIZE).

(** What an [os.write] answers when the pipe takes at most [cap] bytes of
    [chunk]. *)
Definition accept (cap : Z) (chunk : list byte) : Z :=
  Z.min (Z.max 0 cap) (Py.len chunk).

(** Successive feeder callbacks against a pipe that takes at most
    [cap] bytes at the i-th one.  Returns the task, and the bytes the pipe
    has taken: of every chunk offered (read off the trace) the part
    that the answer says was written. *)
Fixpoint feed_capped (fd : Z) (caps : list Z) (t : Task) (taken : list byte)
  : Task * list byte :=
  match caps with
  | [] => (t, taken)
  | cap :: rest =>
      let n := accept cap (offered_chunk t) in
      let o := call (handle_stdin fd (IoOk n)) t in
      let chunk := concat (map chunk_of (trace_of o)) in
      feed_capped fd rest (task_of o) (taken ++ firstn (Z.to_nat n) chunk)
  end.

(** [k] feeder callbacks in a row, each answered by a full write. *)
Fixpoint feed_times (k : nat) (fd : Z) : M unit :=
  match k with
  | O => ret tt
  | S k' => feed fd;; feed_times k' fd
  end.

(** The number of [os.write] calls in a trace. *)
Definition writes_in (tr : list event) : nat :=
  length (List.filter is_os_write tr).

(** ** Observations on the drainers *)

Definition is_sink_write (e : event) : bool :=
  match e with ESinkWrite _ _ => true | _ => false end.

(** Successive readiness callbacks of a drainer, one per chunk read. *)
Fixpoint drain_stdout (rt : Runtime) (fd : Z) (chunks : list (list byte))
  : M unit :=
  match chunks with
  | [] => ret tt
  | chunk :: rest =>
      handle_stdout rt fd (IoOk chunk);; drain_stdout rt fd rest
  end.

Fixpoint drain_stderr (rt : Runtime) (fd : Z) (chunks : list (list byte))
  : M unit :=
  match chunks with
  | [] => ret tt
  | chunk :: rest =>
      handle_stderr rt fd (IoOk chunk);; drain_stderr rt fd rest
  end.

(** A started task that prints raw lines, line-buffered: no annotation. *)
Definition unannotated_options : Options :=
  {| opt_user := None; opt_verbose := false; opt_print_out := Some true;
     opt_inline := Some true; opt_no_annotate_lines := Some true;
     opt_no_buffer_lines := None; opt_inline_stdout := None |}.

Definition unannotated : Task :=
  started
    (constructed
       (init python2 "web1" None None ["ssh"; "web1"; "uptime"]%string
          unannotated_options None)).

(** The task [printing] under Python 3, with ["ab"] held back for the
    error kind of descriptor 5. *)
Definition printing3 : Task :=
  set_fd_to_buffer (<[(5, "err"%string) := Py.encode "ab"]> ∅)
    (started
       (constructed
          (init python3 "web1" None None ["ssh"; "web1"; "uptime"]%string
             print_options None))).

(** ** Observations on annotation *)

(** The marker of a kind, as [OUTPUT_FORMATS] gives it; a kind without
    an entry takes the marker of the entry ['']. *)
Definition marker_of (rt : Runtime) (atype : string) : string :=
  let pal := palette rt in
  if String.eqb atype "err" then Color.B pal (Color.r pal "=>")
  else if String.eqb atype "out" then Color.b pal (Color.g pal "->")
  else Color.B pal (Color.b pal "->").

Definition all_clean (lines : list (list byte)) : bool :=
  forallb no_linebreak lines.

(** * Properties *)

(** Unfolding of the monad's plumbing. *)
Ltac run_m :=
  unfold call, result_of, task_of, trace_of, when, append_failure, sink_flush,
    set_retained, bind, ret, get, modify, emit, raise in *;
  cbn [fst snd] in *.

(** ** Supervisor: kill requests *)

Lemma unstarted_from_init :
  init python2 "web1" None None ["ssh"; "web1"; "uptime"]%string
    default_options None = Ok unstarted.
Proof. reflexivity. Qed.

(** C2, as stated, fails on a task without a process handle: [timedout]
    and [interrupted] on the unstarted task send no signal and leave
    [killed] false, and still append their failure string. *)
Lemma kill_request_without_process :
  killed unstarted = false /\
  call timedout unstarted
    = (Ok tt, set_failures ["Timed out"%string] unstarted, []) /\
  killed (task_of (call timedout unstarted)) = false /\
  call interrupted unstarted
    = (Ok tt, set_failures ["Interrupted"%string] unstarted, []) /\
  killed (task_of (call interrupted unstarted)) = false.
Proof. repeat split; reflexivity. Qed.

(** C2 (amended): on a task whose [killed] flag is set, [timedout] and
    [interrupted] do nothing.  Otherwise they append exactly ["Timed out"]
    (respectively ["Interrupted"]); when the task holds a process handle
    they first send [SIGKILL] to the child's process group (the negated
    pid) and set [killed]; without a process handle no signal is sent
    and [killed] stays false. *)
Theorem kill_requests_spec (t : Task) (tr : list event) :
  match killed t, proc t with
  | true, _ =>
      timedout t tr = (Ok tt, t, tr) /\
      interrupted t tr = (Ok tt, t, tr)
  | false, Some p =>
      timedout t tr
        = (Ok tt,
           set_failures (failures t ++ ["Timed out"%string]) (set_killed true t),
           tr ++ [EKill (- pid p) SIGKILL]) /\
      interrupted t tr
        = (Ok tt,
           set_failures (failures t ++ ["Interrupted"%string]) (set_killed true t),
           tr ++ [EKill (- pid p) SIGKILL])
  | false, None =>
      timedout t tr
        = (Ok tt, set_failures (failures t ++ ["Timed out"%string]) t, tr) /\
      interrupted t tr
        = (Ok tt, set_failures (failures t ++ ["Interrupted"%string]) t, tr)
  end.
Proof.
  unfold timedout, interrupted, _kill. run_m.
  destruct (killed t) eqn:Hk; cbn; [now split|].
  destruct (proc t) as [p|] eqn:Hp; cbn; now split.
Qed.

(** ** Supervisor: the poll predicate *)

(** C3: with the three slots closed and an exit code available,
    [running] stores the code, appends exactly one failure entry for a
    negative code (["Killed by signal N"], [N] the negated code) or a
    positive one (["Exited with error code N"]), none for zero, releases
    the process handle and returns [False]. *)
Theorem running_exit_code (t : Task) (tr : list event)
    (p : Popen) (code : Z)
    (Hin : stdin t = None) (Hout : stdout t = None) (Herr : stderr t = None)
    (Hproc : proc t = Some p) :
  let entries :=
    if code <? 0 then ["Killed by signal " +:+ Py.str_of_int (- code)]
    else if code >? 0 then ["Exited with error code " +:+ Py.str_of_int code]
    else [] in
  let o := running (Some code) t tr in
  result_of o = Ok (Some false) /\
  failures (task_of o) = failures t ++ entries /\
  proc (task_of o) = None /\
  exitstatus (task_of o) = Some code /\
  task_of o
    = set_proc None
        (set_failures (failures t ++ entries) (set_exitstatus (Some code) t)) /\
  trace_of o = tr ++ [EPoll (pid p)].
Proof.
  unfold running. run_m. rewrite Hin, Hout, Herr, Hproc. cbn.
  destruct (code <? 0) eqn:Hneg; cbn.
  - repeat split.
  - destruct (code >? 0) eqn:Hpos; cbn.
    + repeat split.
    + rewrite app_nil_r. repeat split.
Qed.

Lemma running_exit_code_witness :
  let o := running (Some (-9)) drained [] in
  result_of o = Ok (Some false) /\
  failures (task_of o) = ["Killed by signal 9"%string] /\
  proc (task_of o) = None /\
  failures (task_of (running (Some 3) drained []))
    = ["Exited with error code 3"%string] /\
  failures (task_of (running (Some 0) drained [])) = [].
Proof.
  pose proof (running_exit_code drained []
                child (-9)
                eq_refl eq_refl eq_refl eq_refl) as H9.
  pose proof (running_exit_code drained []
                child 3
                eq_refl eq_refl eq_refl eq_refl) as H3.
  pose proof (running_exit_code drained []
                child 0
                eq_refl eq_refl eq_refl eq_refl) as H0.
  cbv zeta in *.
  destruct H9 as (R9 & F9 & P9 & _).
  destruct H3 as (_ & F3 & _).
  destruct H0 as (_ & F0 & _).
  split; [exact R9|]. split; [exact F9|]. split; [exact P9|].
  split; [exact F3 | exact F0].
Defined.

(** ** Construction: the display name *)

Lemma str_app_assoc (a b c : string) :
  ((a +:+ b) +:+ c = a +:+ (b +:+ c))%string.
Proof.
  induction a as [|ch a IH]; [reflexivity|].
  change (String ch ((a +:+ b) +:+ c) = String ch (a +:+ (b +:+ c))).
  now rewrite IH.
Qed.

Lemma str_app_nil_r (a : string) : (a +:+ "" = a)%string.
Proof.
  induction a as [|ch a IH]; [reflexivity|].
  change (String ch (a +:+ "") = String ch a).
  now rewrite IH.
Qed.

Lemma keeps_name_ret {A : Type} (a : A) : keeps_name (ret a).
Proof. intros t tr. reflexivity. Qed.

Lemma keeps_name_raise {A : Type} (e : exn) : keeps_name (@raise A e).
Proof. intros t tr. reflexivity. Qed.

Lemma keeps_name_get : keeps_name get.
Proof. intros t tr. reflexivity. Qed.

Lemma keeps_name_emit (e : event) : keeps_name (emit e).
Proof. intros t tr. reflexivity. Qed.

Lemma keeps_name_modify (f : Task -> Task) :
  (forall t, pretty_host (f t) = pretty_host t) -> keeps_name (modify f).
Proof. intros Hf t tr. apply Hf. Qed.

Lemma keeps_name_bind {A B : Type} (m : M A) (k : A -> M B) :
  keeps_name m -> (forall a, keeps_name (k a)) -> keeps_name (bind m k).
Proof.
  intros Hm Hk t tr. unfold bind.
  specialize (Hm t tr). unfold task_of in *.
  destruct (m t tr) as [[[a|e] t'] tr']; cbn in *.
  - rewrite <- Hm. apply Hk.
  - exact Hm.
Qed.

Lemma keeps_name_when (cond : bool) (body : M unit) :
  keeps_name body -> keeps_name (when cond body).
Proof. intros Hb. destruct cond; [exact Hb | apply keeps_name_ret]. Qed.

Create HintDb keeps.
#[local] Hint Resolve keeps_name_ret keeps_name_raise keeps_name_get
  keeps_name_emit keeps_name_when : keeps.

(** One step of the frame argument: split a bind, discharge a setter, or
    case on what the code branches on. *)
Ltac keeps_step :=
  match goal with
  | |- keeps_name (bind _ _) => apply keeps_name_bind; [| intros ?]
  | |- keeps_name (when _ _) => apply keeps_name_when
  | |- keeps_name (modify _) => apply keeps_name_modify; intros ?; reflexivity
  | |- keeps_name (match ?x with _ => _ end) => destruct x
  | |- keeps_name (let '(_, _) := ?x in _) => destruct x
  | |- keeps_name _ => solve [auto with keeps]
  end.

Ltac keeps := repeat keeps_step.

Lemma keeps_name_sink_write (s : stream) (v : pyval) :
  keeps_name (sink_write s v).
Proof. unfold sink_write. keeps. Qed.

Lemma keeps_name_close_stdin : keeps_name close_stdin.
Proof. unfold close_stdin. keeps. Qed.

Lemma keeps_name_close_stdout : keeps_name close_stdout.
Proof. unfold close_stdout. keeps. Qed.

Lemma keeps_name_close_stderr : keeps_name close_stderr.
Proof. unfold close_stderr. keeps. Qed.

Lemma keeps_name_log_exception (e : OSError) : keeps_name (log_exception e).
Proof. unfold log_exception, append_failure. keeps. Qed.

Lemma keeps_name_kill : keeps_name _kill.
Proof. unfold _kill. keeps. Qed.

#[local] Hint Resolve keeps_name_sink_write keeps_name_close_stdin
  keeps_name_close_stdout keeps_name_close_stderr keeps_name_log_exception
  keeps_name_kill : keeps.

Lemma keeps_name_print_annotated_lines (rt : Runtime) (buf : framer_buf)
    (atype : string) (fd : option Z) (force_finish : bool) :
  keeps_name (print_annotated_lines rt buf atype fd force_finish).
Proof.
  unfold print_annotated_lines, set_retained, add_pre, sink_flush. keeps.
Qed.

#[local] Hint Resolve keeps_name_print_annotated_lines : keeps.

Lemma keeps_name_invoke (rt : Runtime) (m : method) :
  keeps_name (invoke rt m).
Proof.
  destruct m; cbn [invoke];
    unfold start, timedout, interrupted, cancel, running, handle_stdin,
      handle_stdout, handle_stderr, report, append_failure, sink_flush;
    keeps.
Qed.

Lemma run_methods_keeps_name (rt : Runtime) (ms : list method) :
  forall t tr, pretty_host (fst (run_methods rt ms t tr)) = pretty_host t.
Proof.
  induction ms as [|m rest IH]; intros t tr; cbn [run_methods].
  - reflexivity.
  - rewrite IH. apply keeps_name_invoke.
Qed.

(** C10: the display name that [init] derives is the host, with
    ["user@"] in front exactly when the user differs from the options'
    default user, and [":port"] behind exactly when a non-empty port is
    given; no later invocation of any method changes it. *)
Theorem pretty_host_spec (rt : Runtime) (h : string) (p : option string)
    (user : option string) (cmdv : list string) (opts : Options)
    (input : option (list byte)) (t : Task)
    (Hinit : init rt h p user cmdv opts input = Ok t) :
  pretty_host t
    = ((if decide (user <> opt_user opts)
        then default EmptyString user +:+ "@" else "")
       +:+ h
       +:+ (if Py.truthy_str p then ":" +:+ default EmptyString p else ""))%string
  /\ forall ms tr, pretty_host (fst (run_methods rt ms t tr)) = pretty_host t.
Proof.
  split; [| intros ms tr; apply run_methods_keeps_name].
  unfold init in Hinit.
  destruct (decide (user <> opt_user opts)) as [Hne|Heq].
  - destruct user as [u|]; [| discriminate Hinit].
    injection Hinit as <-. cbn [pretty_host default Py.join].
    destruct (Py.truthy_str p); cbn [Py.join].
    + now rewrite !str_app_assoc.
    + now rewrite !str_app_assoc, str_app_nil_r.
  - injection Hinit as <-. cbn [pretty_host default Py.join].
    destruct (Py.truthy_str p); cbn [Py.join String.append].
    + reflexivity.
    + now rewrite str_app_nil_r.
Qed.

Lemma pretty_host_spec_witness :
  exists t,
    init python2 "web1" (Some "2222"%string) (Some "deploy"%string)
      ["ssh"%string] default_options None = Ok t /\
    pretty_host t = "deploy@web1:2222"%string /\
    pretty_host
      (fst (run_methods python2 [MCancel; MTimedout; MRunning None] t []))
    = "deploy@web1:2222"%string.
Proof.
  eexists. split; [reflexivity|].
  pose proof (pretty_host_spec python2 "web1" (Some "2222"%string)
                (Some "deploy"%string) ["ssh"%string] default_options None _
                eq_refl) as [Hname Hkeep].
  split; [exact Hname|].
  rewrite Hkeep. exact Hname.
Defined.

(** ** Stream handlers: errors *)

(** What a fatal error does in each drainer, for any task: the output
    drainer closes its own slot, the error drainer closes the input slot. *)
Lemma handle_stdout_fatal (rt : Runtime) (t : Task) (tr : list event)
    (fd : Z) (e : OSError) :
  errno e <> EINTR ->
  handle_stdout rt fd (IoErr e) t tr
  = (close_stdout;; log_exception e) t (tr ++ [EOsRead fd BUFFER_SIZE]).
Proof.
  intros Hne. unfold handle_stdout. run_m.
  destruct (errno e =? EINTR) eqn:He; [lia | reflexivity].
Qed.

Lemma handle_stderr_fatal (rt : Runtime) (t : Task) (tr : list event)
    (fd : Z) (e : OSError) :
  errno e <> EINTR ->
  handle_stderr rt fd (IoErr e) t tr
  = (close_stdin;; log_exception e) t (tr ++ [EOsRead fd BUFFER_SIZE]).
Proof.
  intros Hne. unfold handle_stderr. run_m.
  destruct (errno e =? EINTR) eqn:He; [lia | reflexivity].
Qed.

Lemma handle_stderr_fatal_keeps_stderr (rt : Runtime) (t : Task)
    (tr : list event) (fd : Z) (e : OSError) :
  errno e <> EINTR ->
  stderr (task_of (handle_stderr rt fd (IoErr e) t tr)) = stderr t /\
  stdin (task_of (handle_stderr rt fd (IoErr e) t tr)) = None.
Proof.
  intros Hne. rewrite handle_stderr_fatal by exact Hne.
  unfold close_stdin, log_exception. run_m.
  destruct (stdin t) eqn:Hin; cbn; split; auto.
Qed.

(** C1 (the code departs from it): on a fatal read error the error
    drainer of the task [draining] leaves the error slot open and
    registered, and closes and unregisters the input slot instead; one
    failure entry is appended. *)
Theorem handle_stderr_fatal_closes_stdin :
  let o := call (handle_stderr python2 5 (IoErr EIO_error)) draining in
  stdin draining = Some 3 /\ stderr draining = Some 5 /\
  result_of o = Ok tt /\
  stderr (task_of o) = Some 5 /\
  stdin (task_of o) = None /\
  stdout (task_of o) = Some 4 /\
  failures (task_of o) = ["[Errno 5] Input/output error"%string] /\
  trace_of o = [EOsRead 5 BUFFER_SIZE; EUnregister 3; EClose 3].
Proof. cbv zeta. repeat split; reflexivity. Qed.

(** The sibling path: the output drainer on the same error closes its
    own slot and no other. *)
Example handle_stdout_fatal_closes_stdout :
  let o := call (handle_stdout python2 4 (IoErr EIO_error)) draining in
  stdout (task_of o) = None /\
  stdin (task_of o) = Some 3 /\
  stderr (task_of o) = Some 5 /\
  failures (task_of o) = ["[Errno 5] Input/output error"%string] /\
  trace_of o = [EOsRead 4 BUFFER_SIZE; EUnregister 4; EClose 4].
Proof. cbv zeta. repeat split; reflexivity. Qed.

(** ** Stream handlers: stale events *)




(** ** Reporter *)

Lemma stream_eqb_refl (s : stream) : stream_eqb s s = true.
Proof. destruct s; reflexivity. Qed.

(** C7, as stated, fails in its second half: the last write of [report],
    that of the captured error buffer, is followed by no flush. *)
Lemma report_last_write_not_flushed :
  trace_of (call (report python2 1 false "12:00:00") captured)
  = [ ESinkWrite SysStderr (Py.encode "[1] 12:00:00 [SUCCESS] web1" ++ [Py.LF]);
      ESinkFlush SysStderr;
      ESinkFlush SysStdout;
      ESinkWrite SysStdout (Py.encode "up 3 days");
      ESinkFlush SysStdout;
      ESinkWrite SysStdout (Py.encode "Stderr: ");
      ESinkFlush SysStdout;
      ESinkWrite SysStdout (Py.encode "warn") ] /\
  all_flushed (trace_of (call (report python2 1 false "12:00:00") captured))
  = false.
Proof. split; reflexivity. Qed.

(** On binary sinks the text marker is refused: the call raises before
    the captured error is written. *)
Example report_binary_sink_refuses_marker :
  result_of (call (report python3 1 false "12:00:00") captured3)
  = Exc (TypeError "a bytes-like object is required, not 'str'").
Proof. reflexivity. Qed.

(** C7 (amended): [report] writes, in this order, the summary line to
    the error sink, then the captured output when it is non-empty, then,
    when a captured error exists, the error-section marker followed by
    the captured error; every write except the last one, that of the
    captured error, is directly followed by a flush of its sink.  (Sinks
    that take text, or no captured error.) *)
Theorem report_order (rt : Runtime) (t : Task) (tr : list event)
    (n : Z) (has_colors : bool) (tstamp : string)
    (Htext : is_binary (outstream t) = false \/ errorbuffer t = []) :
  let summary := Py.encode (report_msg rt n has_colors tstamp t) ++ [Py.LF] in
  let flushed :=
    [ESinkWrite (errstream t) summary; ESinkFlush (errstream t)]
    ++ (if Py.truthy (outputbuffer t)
        then [ESinkFlush (outstream t);
              ESinkWrite (outstream t) (outputbuffer t);
              ESinkFlush (outstream t)]
        else [])
    ++ (if Py.truthy (errorbuffer t)
        then [ESinkWrite (outstream t)
                (Py.encode (report_stderr_mark rt has_colors));
              ESinkFlush (outstream t)]
        else []) in
  let unflushed :=
    if Py.truthy (errorbuffer t)
    then [ESinkWrite (outstream t) (errorbuffer t)] else [] in
  report rt n has_colors tstamp t tr = (Ok tt, t, tr ++ flushed ++ unflushed)
  /\ all_flushed flushed = true.
Proof.
  cbv zeta. split.
  - unfold report, sink_write. run_m.
    destruct (Py.truthy (outputbuffer t)); cbn;
      destruct (errorbuffer t) as [|b0 eb] eqn:Heb; cbn;
      rewrite <- ?app_assoc; cbn; try reflexivity;
      destruct Htext as [Hbin | Hnil]; try discriminate Hnil;
      rewrite Hbin; cbn; rewrite <- ?app_assoc; reflexivity.
  - cbn. rewrite !stream_eqb_refl.
    destruct (Py.truthy (outputbuffer t)), (Py.truthy (errorbuffer t));
      cbn; rewrite ?stream_eqb_refl; reflexivity.
Qed.

Lemma report_order_witness :
  report python2 1 false "12:00:00" captured []
  = (Ok tt, captured,
     [ ESinkWrite SysStderr (Py.encode "[1] 12:00:00 [SUCCESS] web1" ++ [Py.LF]);
       ESinkFlush SysStderr;
       ESinkFlush SysStdout;
       ESinkWrite SysStdout (Py.encode "up 3 days");
       ESinkFlush SysStdout;
       ESinkWrite SysStdout (Py.encode "Stderr: ");
       ESinkFlush SysStdout;
       ESinkWrite SysStdout (Py.encode "warn") ]).
Proof.
  pose proof (report_order python2 captured [] 1 false "12:00:00"
                (or_introl eq_refl)) as [Hrun _].
  exact Hrun.
Defined.

(** ** Input feeder *)

Lemma BUFFER_SIZE_value : BUFFER_SIZE = 65536.
Proof. reflexivity. Qed.

Lemma len_slice (buf : list byte) (start size : Z) :
  0 <= start <= Py.len buf -> 0 <= size ->
  Py.len (Py.slice buf start (start + size))
  = Z.min size (Py.len buf - start).
Proof.
  intros Hs Hz. unfold Py.slice, Py.clamp.
  destruct (Z.ltb_spec start 0); [lia|].
  destruct (Z.ltb_spec (start + size) 0); [lia|].
  unfold Py.len in *. rewrite length_firstn, length_skipn. lia.
Qed.

(** A callback while input remains: one [os.write] of the next slice, and
    the offset advances by what a full write transfers. *)
Lemma feed_writes (t : Task) (tr : list event) (fd : Z) (input : list byte) :
  inputbuffer t = Some input ->
  0 <= byteswritten t < Py.len input ->
  feed fd t tr
  = (Ok tt,
     set_byteswritten
       (byteswritten t + Z.min BUFFER_SIZE (Py.len input - byteswritten t)) t,
     tr ++ [EOsWrite fd (Py.slice input (byteswritten t)
                           (byteswritten t + BUFFER_SIZE))]).
Proof.
  intros Hinput Hrange. unfold feed, full_write, handle_stdin. run_m.
  rewrite Hinput. cbn [default].
  destruct (byteswritten t <? Py.len input) eqn:Hlt; [| lia].
  cbn. rewrite len_slice by (rewrite ?BUFFER_SIZE_value; lia). reflexivity.
Qed.

(** A callback once the offset has reached the end: no write, the slot
    is unregistered and closed. *)
Lemma feed_closes (t : Task) (tr : list event) (fd slot : Z)
    (input : list byte) :
  inputbuffer t = Some input ->
  Py.len input <= byteswritten t ->
  stdin t = Some slot ->
  feed fd t tr
  = (Ok tt, set_stdin None t, tr ++ [EUnregister slot; EClose slot]).
Proof.
  intros Hinput Hrange Hslot. unfold feed, full_write, handle_stdin. run_m.
  rewrite Hinput.
  destruct (byteswritten t <? Py.len input) eqn:Hlt; [lia|].
  unfold close_stdin. run_m. rewrite Hslot. cbn.
  rewrite <- app_assoc. reflexivity.
Qed.

(** [start] on a freshly constructed task with non-empty input opens the
    input slot on the child's pipe, at offset 0. *)
Lemma start_opens_stdin (rt : Runtime) (h : string) (p user : option string)
    (cmdv : list string) (opts : Options) (input : list byte) (t0 : Task)
    (nodenum : Z) (w : option Writer) (sock : option string)
    (env : gmap string string) (exe : string) (files : Z * Z)
    (ch : Popen) (now : Z) :
  init rt h p user cmdv opts (Some input) = Ok t0 ->
  Py.truthy input = true ->
  let t := task_of (call (start nodenum w sock env exe files ch now) t0) in
  inputbuffer t = Some input /\ byteswritten t = 0 /\
  stdin t = Some (proc_stdin ch).
Proof.
  intros Hinit Hne. unfold init in Hinit.
  assert (Hfresh : inputbuffer t0 = Some input /\ byteswritten t0 = 0 /\
                   stdin t0 = None).
  { destruct (decide (user <> opt_user opts));
      [destruct user; [| discriminate Hinit] |];
      injection Hinit as <-; repeat split; reflexivity. }
  destruct Hfresh as (Hib & Hbw & _). clear Hinit.
  unfold start. run_m.
  destruct w as [wr|]; simpl; rewrite Hib, Hne; simpl; auto.
Qed.

(** C8: a task started with a 200000-byte input and fed by full writes
    of at most [BUFFER_SIZE] = 65536 bytes makes a write in each of its
    first four feeder callbacks and in no later one; the offsets after
    them are 65536, 131072, 196608 and 200000; the slot stays open
    through the four and the fifth callback closes it, with the offset
    at 200000. *)
Theorem feeder_scenario (rt : Runtime) (h : string) (p user : option string)
    (cmdv : list string) (opts : Options) (input : list byte) (t0 : Task)
    (nodenum : Z) (w : option Writer) (sock : option string)
    (env : gmap string string) (exe : string) (files : Z * Z)
    (ch : Popen) (now : Z) (fd : Z)
    (Hinit : init rt h p user cmdv opts (Some input) = Ok t0)
    (Hlen : Py.len input = 200000) :
  let t := task_of (call (start nodenum w sock env exe files ch now) t0) in
  let hist := feed_history 5 fd t [] in
  BUFFER_SIZE = 65536 /\
  map (fun o => byteswritten (fst o)) hist
    = [65536; 131072; 196608; 200000; 200000] /\
  map (fun o => stdin (fst o)) hist
    = [Some (proc_stdin ch); Some (proc_stdin ch); Some (proc_stdin ch);
       Some (proc_stdin ch); None] /\
  map snd hist
    = (let w1 := EOsWrite fd (Py.slice input 0 65536) in
       let w2 := EOsWrite fd (Py.slice input 65536 131072) in
       let w3 := EOsWrite fd (Py.slice input 131072 196608) in
       let w4 := EOsWrite fd (Py.slice input 196608 262144) in
       [ [w1]; [w1; w2]; [w1; w2; w3]; [w1; w2; w3; w4];
         [w1; w2; w3; w4;
          EUnregister (proc_stdin ch); EClose (proc_stdin ch)] ]) /\
  map (fun o => length (filter is_os_write (snd o))) hist
    = [1; 2; 3; 4; 4]%nat.
Proof.
  assert (Hne : Py.truthy input = true).
  { destruct input; [discriminate Hlen | reflexivity]. }
  pose proof (start_opens_stdin rt h p user cmdv opts input t0 nodenum w sock
                env exe files ch now Hinit Hne) as Hstart.
  cbv zeta in *. destruct Hstart as (Hib & Hbw & Hslot).
  set (t := task_of (call (start nodenum w sock env exe files ch now) t0)) in *.
  clearbody t.
  unfold feed_history, task_of, trace_of.
  rewrite (feed_writes t [] fd input) by (rewrite ?Hbw, ?Hlen; auto; lia).
  cbn [fst snd].
  rewrite (feed_writes _ _ fd input)
    by (cbn; rewrite ?Hbw, ?Hlen, ?BUFFER_SIZE_value; auto; lia).
  cbn [fst snd].
  rewrite (feed_writes _ _ fd input)
    by (cbn; rewrite ?Hbw, ?Hlen, ?BUFFER_SIZE_value; auto; lia).
  cbn [fst snd].
  rewrite (feed_writes _ _ fd input)
    by (cbn; rewrite ?Hbw, ?Hlen, ?BUFFER_SIZE_value; auto; lia).
  cbn [fst snd].
  rewrite (feed_closes _ _ fd (proc_stdin ch) input)
    by (cbn; rewrite ?Hbw, ?Hlen, ?BUFFER_SIZE_value; auto; lia).
  cbn [fst snd map byteswritten set_byteswritten set_stdin stdin app].
  rewrite Hbw, Hlen, Hslot, BUFFER_SIZE_value.
  repeat split; reflexivity.
Qed.

Lemma big_input_len : Py.len big_input = 200000.
Proof.
  unfold Py.len, big_input. rewrite repeat_length. apply Z2Nat.id. lia.
Defined.

Lemma feeder_scenario_witness :
  let t := started big_task in
  map (fun o => byteswritten (fst o)) (feed_history 5 3 t [])
    = [65536; 131072; 196608; 200000; 200000] /\
  map (fun o => stdin (fst o)) (feed_history 5 3 t [])
    = [Some 3; Some 3; Some 3; Some 3; None] /\
  map (fun o => length (filter is_os_write (snd o))) (feed_history 5 3 t [])
    = [1; 2; 3; 4; 4]%nat.
Proof.
  pose proof (feeder_scenario python2 "web1" None None
                ["ssh"; "web1"; "cat"]%string default_options big_input
                big_task 0 None None ∅ "/usr/libexec/pssh-askpass" (0, 0)
                child 0 3 eq_refl big_input_len) as H.
  cbv zeta in *. destruct H as (_ & Hoff & Hslot & _ & Hcount).
  split; [exact Hoff|]. split; [exact Hslot | exact Hcount].
Defined.

(** ** Line framer *)

(** *** Splitting *)

Lemma ends_with_linebreak_snoc (p : list byte) (e : byte) :
  ends_with_linebreak (p ++ [e]) = Py.is_linebreak e.
Proof. unfold ends_with_linebreak. now rewrite rev_unit. Qed.

Lemma last_is_not_LF_snoc (p : list byte) (e : byte) :
  Py.last_is_not_LF (p ++ [e]) = negb (Py.is_LF e).
Proof. unfold Py.last_is_not_LF. now rewrite rev_unit. Qed.

Lemma truthy_snoc (p : list byte) (e : byte) : Py.truthy (p ++ [e]) = true.
Proof. destruct p; reflexivity. Qed.

Lemma not_linebreak_inv (c : byte) :
  Py.is_linebreak c = false -> Py.is_LF c = false /\ Py.is_CR c = false.
Proof. unfold Py.is_linebreak. intros H. now apply orb_false_elim in H. Qed.

(** A run without terminators extends the line being scanned. *)
Lemma splitlines_from_no_linebreak (seg cur : list byte) :
  no_linebreak seg = true ->
  Py.splitlines_from cur seg
  = match cur ++ seg with [] => [] | _ :: _ => [cur ++ seg] end.
Proof.
  revert cur. induction seg as [|c seg IH]; intros cur Hseg.
  - rewrite app_nil_r. reflexivity.
  - cbn in Hseg. apply andb_true_iff in Hseg as [Hc Hseg].
    apply negb_true_iff, not_linebreak_inv in Hc as [Hlf Hcr].
    cbn [Py.splitlines_from]. rewrite Hlf, Hcr.
    rewrite IH by exact Hseg. rewrite <- app_assoc. cbn [app].
    destruct cur; reflexivity.
Qed.

(** Every byte sequence is a part that is empty or ends with a
    terminator, followed by a run without terminators. *)
Lemma tail_fragment (buf : list byte) :
  exists prefix seg,
    buf = prefix ++ seg /\ no_linebreak seg = true /\
    (prefix = [] \/ ends_with_linebreak prefix = true).
Proof.
  induction buf as [|x b IH] using rev_ind.
  - exists [], []. auto.
  - destruct (Py.is_linebreak x) eqn:Hx.
    + exists (b ++ [x]), []. rewrite app_nil_r.
      split; [reflexivity|]. split; [reflexivity|]. right.
      now rewrite ends_with_linebreak_snoc.
    + destruct IH as (prefix & seg & -> & Hseg & Hpre).
      exists prefix, (seg ++ [x]). rewrite app_assoc.
      split; [reflexivity|]. split; [| exact Hpre].
      unfold no_linebreak in *. rewrite forallb_app, Hseg. cbn.
      now rewrite Hx.
Qed.

(** After a part that ends with a terminator, a non-empty run without
    terminators is one more line. *)
Lemma splitlines_from_snoc_fragment (n : nat) :
  forall (p : list byte) (e : byte) (cur seg : list byte),
    (length p <= n)%nat ->
    Py.is_linebreak e = true ->
    no_linebreak seg = true ->
    Py.splitlines_from cur ((p ++ [e]) ++ seg)
    = Py.splitlines_from cur (p ++ [e])
      ++ match seg with [] => [] | _ :: _ => [seg] end.
Proof.
  induction n as [n IH] using lt_wf_ind.
  intros p e cur seg Hlen He Hseg.
  assert (Hbase : forall cur0,
             Py.splitlines_from cur0 ([e] ++ seg)
             = Py.splitlines_from cur0 [e]
               ++ match seg with [] => [] | _ :: _ => [seg] end).
  { intros cur0. cbn [app Py.splitlines_from].
    destruct (Py.is_LF e) eqn:Hlf.
    - rewrite (splitlines_from_no_linebreak seg []) by exact Hseg.
      reflexivity.
    - unfold Py.is_linebreak in He. rewrite Hlf in He. cbn in He. rewrite He.
      destruct seg as [|s0 seg']; [reflexivity|].
      pose proof Hseg as Hseg'. cbn in Hseg'.
      apply andb_true_iff in Hseg' as [Hs0 _].
      apply negb_true_iff, not_linebreak_inv in Hs0 as [Hs0 _].
      rewrite Hs0.
      rewrite (splitlines_from_no_linebreak (s0 :: seg') []) by exact Hseg.
      reflexivity. }
  destruct p as [|c p'].
  - apply Hbase.
  - cbn [app Py.splitlines_from length] in Hlen |- *.
    destruct (Py.is_LF c) eqn:Hc.
    + rewrite (IH (length p')) with (p := p') by (auto; lia). reflexivity.
    + destruct (Py.is_CR c) eqn:Hcr.
      * destruct p' as [|c' p''].
        -- cbn [app]. destruct (Py.is_LF e) eqn:Hlf.
           ++ rewrite (splitlines_from_no_linebreak seg []) by exact Hseg.
              reflexivity.
           ++ pose proof (Hbase []) as Hb. cbn [app] in Hb.
              rewrite Hb. reflexivity.
        -- cbn [app length] in Hlen |- *. destruct (Py.is_LF c') eqn:Hc'.
           ++ rewrite (IH (length p'')) with (p := p'') by (auto; lia).
              reflexivity.
           ++ pose proof (IH (length (c' :: p'')) ltac:(cbn; lia) (c' :: p'')
                             e [] seg ltac:(lia) He Hseg) as Hi.
              cbn [app] in Hi. rewrite Hi. reflexivity.
      * rewrite (IH (length p')) with (p := p') by (auto; lia). reflexivity.
Qed.

Lemma splitlines_snoc_fragment (prefix seg : list byte) :
  prefix = [] \/ ends_with_linebreak prefix = true ->
  no_linebreak seg = true ->
  Py.splitlines (prefix ++ seg)
  = Py.splitlines prefix ++ match seg with [] => [] | _ :: _ => [seg] end.
Proof.
  intros [-> | Hend] Hseg.
  - unfold Py.splitlines. cbn [app].
    rewrite splitlines_from_no_linebreak by exact Hseg. reflexivity.
  - destruct prefix as [|x b] using rev_ind; [discriminate Hend|].
    rewrite ends_with_linebreak_snoc in Hend.
    unfold Py.splitlines.
    apply (splitlines_from_snoc_fragment (length b)); auto.
Qed.

(** *** One call of the framer *)

Lemma outs_emitted (rt : Runtime) (t : Task) (atype : string)
    (lines : list (list byte)) (unfinished : bool) :
  lines <> [] ->
  imap (outline_of rt (annotate_lines t) (format_for rt atype) (host_b t)
          unfinished (length lines)) lines
  = emitted rt t atype lines unfinished.
Proof.
  intros Hne. unfold emitted, Py.but_last, Py.last_line.
  destruct lines as [|x l] using rev_ind; [congruence|]. clear IHl Hne.
  rewrite removelast_last, last_last, imap_app. f_equal.
  - rewrite <- (imap_const (annotated rt t atype)).
    apply imap_ext. intros i y Hi. apply lookup_lt_Some in Hi.
    unfold outline_of, annotated, const. rewrite length_app. cbn [length].
    destruct (Nat.eqb_spec i (length l + 1 - 1)); [lia | reflexivity].
  - cbn [imap]. unfold outline_of, annotated. rewrite length_app. cbn [length].
    destruct (Nat.eqb_spec (length l + 0) (length l + 1 - 1)); [| lia].
    destruct unfinished; [reflexivity | now rewrite app_nil_r].
Qed.

(** The last step of a call: nothing is written for no lines; otherwise
    the loop's [outs] are the [emitted] lines. *)
Ltac framer_written rt t atype :=
  match goal with
  | |- context [match ?lines with [] => _ | _ :: _ => _ end] =>
      let Hl := fresh "Hl" in
      let Ho := fresh "Ho" in
      destruct lines eqn:Hl; [reflexivity|];
      rewrite <- Hl;
      match goal with
      | |- context [imap (outline_of _ _ _ _ ?unf _) lines] =>
          assert (Ho : imap (outline_of rt (annotate_lines t)
                               (format_for rt atype) (host_b t) unf
                               (length lines)) lines
                       = emitted rt t atype lines unf)
            by (apply outs_emitted; congruence);
          cbn in Ho |- *; rewrite Ho; rewrite <- app_assoc; reflexivity
      end
  end.

(** What one call on bytes does: the retained fragment is put in front;
    an unfinished last line is held back when a descriptor is given,
    buffering is on and completion is not forced; what remains is
    written and flushed in one piece. *)
Lemma print_annotated_lines_bytes (rt : Runtime) (t : Task)
    (tr : list event) (data : list byte) (atype : string) (fd : option Z)
    (force_finish : bool) :
  let buf := retained t fd atype ++ data in
  let unfinished := Py.truthy buf && Py.last_is_not_LF buf in
  let hold :=
    is_set fd && unfinished && buffer_lines t && negb force_finish in
  let lines :=
    if hold then Py.but_last (Py.splitlines buf) else Py.splitlines buf in
  let t' :=
    match fd with
    | Some d =>
        set_fd_to_buffer
          (<[(d, atype) := if hold then Py.last_line (Py.splitlines buf)
                           else []]> (fd_to_buffer t)) t
    | None => t
    end in
  print_annotated_lines rt (FBytes data) atype fd force_finish t tr
  = match lines with
    | [] => (Ok [], t', tr)
    | _ :: _ =>
        let out :=
          Py.bjoin [Py.LF] (emitted rt t atype lines (unfinished && negb hold))
          ++ [Py.LF] in
        (Ok out, t', tr ++ [ESinkWrite (sink_for t atype) out;
                            ESinkFlush (sink_for t atype)])
    end.
Proof.
  cbv zeta. unfold print_annotated_lines, retained, sink_for, sink_write.
  run_m.
  destruct fd as [d|]; cbn [is_set andb].
  - set (pre := default [] (fd_to_buffer t !! (d, atype))).
    assert (Hadd : (if Py.truthy pre then add_pre rt pre (FBytes data)
                    else fun t0 tr0 => (Ok (FBytes data), t0, tr0))
                   = fun t0 tr0 => (Ok (FBytes (pre ++ data)), t0, tr0)).
    { destruct pre; reflexivity. }
    rewrite Hadd. clear Hadd. cbn [framer_bytes].
    set (buf := pre ++ data).
    set (unfinished := Py.truthy buf && Py.last_is_not_LF buf).
    destruct (unfinished && buffer_lines t && negb force_finish) eqn:Hhold;
      cbn; rewrite Hhold; unfold set_fd_to_buffer; cbn.
    + rewrite insert_insert_eq.
      assert (Hu : unfinished = true).
      { now apply andb_true_iff in Hhold as [Hh _];
          apply andb_true_iff in Hh as [Hh _]. }
      rewrite Hu. cbn [negb andb]. framer_written rt t atype.
    + rewrite andb_true_r. framer_written rt t atype.
  - cbn [app framer_bytes]. rewrite andb_true_r. framer_written rt t atype.
Qed.


Lemma no_linebreak_snoc (seg : list byte) (x : byte) :
  no_linebreak (seg ++ [x]) = true -> Py.is_linebreak x = false.
Proof.
  unfold no_linebreak. rewrite forallb_app. cbn.
  intros H. apply andb_true_iff in H as [_ H].
  rewrite andb_true_r in H. now apply negb_true_iff in H.
Qed.



Example held_back_fragment_run :
  let o := print_annotated_lines python2 (FBytes chunk_c_de) "out" (Some 4)
             false printing [] in
  fd_to_buffer (task_of o) !! (4, "out"%string) = Some (Py.encode "de") /\
  trace_of o = [ESinkWrite SysStdout (Py.encode "web1 -> abc" ++ [Py.LF]);
                ESinkFlush SysStdout].
Proof. cbv zeta. split; vm_compute; reflexivity. Qed.

(** *** Annotation disabled *)

(** C6, as stated, fails: with annotation disabled the unterminated-line
    mark is still appended to a last line that lacks its newline. *)
Lemma raw_line_gets_mark :
  annotate_lines raw_printing = false /\
  call (print_annotated_lines python2 (FBytes (Py.encode "partial")) "out"
          (Some 4) false) raw_printing
  = (Ok (Py.encode "partial" ++ [x5c; Py.LF]),
     set_fd_to_buffer (<[(4, "out"%string) := []]> ∅) raw_printing,
     [ESinkWrite SysStdout (Py.encode "partial" ++ [x5c; Py.LF]);
      ESinkFlush SysStdout]).
Proof. split; reflexivity. Qed.

(** C6 (amended): with annotation disabled no host annotation is added:
    every line is written as it was read, and the only addition is the
    unterminated-line mark behind the last line of a call, when the
    buffer does not end with a newline and that line is not held back;
    without it the lines are written unmodified. *)
Theorem framer_raw_lines (rt : Runtime) (t : Task) (tr : list event)
    (data : list byte) (atype : string) (fd : option Z) (force_finish : bool)
    (Hraw : annotate_lines t = false) :
  let buf := retained t fd atype ++ data in
  let unfinished := Py.truthy buf && Py.last_is_not_LF buf in
  let hold :=
    is_set fd && unfinished && buffer_lines t && negb force_finish in
  let lines :=
    if hold then Py.but_last (Py.splitlines buf) else Py.splitlines buf in
  let marked := unfinished && negb hold in
  let outs :=
    Py.but_last lines
    ++ [Py.last_line lines
        ++ (if marked then UNTERMINATED_LINE_MARK rt else [])] in
  let o := print_annotated_lines rt (FBytes data) atype fd force_finish t tr in
  result_of o
    = Ok (match lines with
          | [] => []
          | _ :: _ => Py.bjoin [Py.LF] outs ++ [Py.LF]
          end) /\
  trace_of o
    = tr ++ match lines with
            | [] => []
            | _ :: _ =>
                [ESinkWrite (sink_for t atype) (Py.bjoin [Py.LF] outs ++ [Py.LF]);
                 ESinkFlush (sink_for t atype)]
            end /\
  (marked = false -> lines <> [] -> outs = lines).
Proof.
  cbv zeta.
  pose proof (print_annotated_lines_bytes rt t tr data atype fd force_finish)
    as Hrun.
  cbv zeta in Hrun. rewrite Hrun. clear Hrun.
  set (buf := retained t fd atype ++ data).
  set (unfinished := Py.truthy buf && Py.last_is_not_LF buf).
  set (hold := is_set fd && unfinished && buffer_lines t && negb force_finish).
  set (lines := if hold then Py.but_last (Py.splitlines buf)
                else Py.splitlines buf).
  assert (Hem : emitted rt t atype lines (unfinished && negb hold)
                = Py.but_last lines
                  ++ [Py.last_line lines
                      ++ (if unfinished && negb hold
                          then UNTERMINATED_LINE_MARK rt else [])]).
  { unfold emitted, annotated. rewrite Hraw. now rewrite map_id. }
  split; [| split].
  - destruct lines; [reflexivity|]. unfold result_of. cbn [fst].
    now rewrite Hem.
  - destruct lines; [now rewrite app_nil_r|]. unfold trace_of. cbn [snd].
    now rewrite Hem.
  - intros Hm Hne. rewrite Hm, app_nil_r.
    unfold Py.but_last, Py.last_line.
    symmetry. now apply app_removelast_last.
Qed.

Lemma framer_raw_lines_witness :
  result_of (print_annotated_lines python2 (FBytes chunk_two_lines) "out"
               (Some 4) false raw_printing [])
  = Ok chunk_two_lines.
Proof.
  pose proof (framer_raw_lines python2 raw_printing [] chunk_two_lines "out"
                (Some 4) false eq_refl) as H.
  cbv zeta in H. destruct H as (Hres & _).
  rewrite Hres. reflexivity.
Defined.

(** *** Carriage returns *)

(** C5 (the code departs from it): the stream [abc CR def LF], read as
    the chunks [abc CR] and [def LF], holds the two lines ["abc"] and
    ["def"].  The framer takes the chunk that ends with a carriage return
    for unfinished, retains ["abc"] without its terminator, and writes
    the single line ["abcdef"]: the stream cannot be rebuilt from what
    is written. *)
Theorem framer_loses_carriage_return :
  Py.splitlines (chunk_abc_cr ++ chunk_def_lf)
    = [Py.encode "abc"; Py.encode "def"] /\
  buffer_lines printing = true /\
  let o := call (frame_stream python2 "out" 7 [chunk_abc_cr; chunk_def_lf])
             printing in
  result_of o = Ok [[]; Py.encode "web1 -> abcdef" ++ [Py.LF]; []] /\
  trace_of o = [ESinkWrite SysStdout (Py.encode "web1 -> abcdef" ++ [Py.LF]);
                ESinkFlush SysStdout] /\
  fd_to_buffer
    (task_of (call (print_annotated_lines python2 (FBytes chunk_abc_cr) "out"
                      (Some 7) false) printing)) !! (7, "out"%string)
  = Some (Py.encode "abc").
Proof. cbv zeta. repeat split; vm_compute; reflexivity. Qed.

(** The same defect in a forced call: a last line that ends with a
    carriage return is marked as unterminated. *)
Example framer_marks_terminated_line :
  result_of (call (print_annotated_lines python2 (FBytes chunk_abc_cr) "out"
                     (Some 7) true) printing)
  = Ok (Py.encode "web1 -> abc" ++ [x5c; Py.LF]).
Proof. vm_compute. reflexivity. Qed.

(** *** Streams without carriage returns *)

(** Where LF is the only terminator the framer does rebuild the stream;
    the lemmas below make this precise. *)

Lemma splitlines_from_nonempty (l cur : list byte) :
  l <> [] -> Py.splitlines_from cur l <> [].
Proof.
  revert cur. induction l as [|c rest IH]; intros cur Hne; [congruence|].
  cbn [Py.splitlines_from].
  destruct (Py.is_LF c); [discriminate|].
  destruct (Py.is_CR c).
  - destruct rest as [|c' rest']; [discriminate|].
    destruct (Py.is_LF c'); discriminate.
  - destruct rest as [|c' rest'].
    + cbn. destruct cur; discriminate.
    + apply IH. discriminate.
Qed.

(** An unfinished buffer has a last line: [lines[-1]] is defined
    wherever the framer takes it. *)
Lemma splitlines_nonempty (buf : list byte) :
  Py.truthy buf = true -> Py.splitlines buf <> [].
Proof.
  intros H. apply splitlines_from_nonempty. destruct buf; [discriminate H|].
  discriminate.
Qed.

Lemma is_LF_eq (c : byte) : Py.is_LF c = true -> c = Py.LF.
Proof. apply byte_dec_bl. Qed.

Lemma ends_with_linebreak_cons (c : byte) (rest : list byte) :
  rest <> [] ->
  ends_with_linebreak (c :: rest) = ends_with_linebreak rest.
Proof.
  intros Hne. unfold ends_with_linebreak. cbn [rev].
  destruct rest as [|x r] using rev_ind; [congruence|].
  now rewrite rev_unit.
Qed.

Lemma join_splitlines_from (l cur : list byte) :
  cr_free l = true -> l <> [] -> ends_with_linebreak l = true ->
  concat (map (fun s => s ++ [Py.LF]) (Py.splitlines_from cur l)) = cur ++ l.
Proof.
  revert cur. induction l as [|c rest IH]; intros cur Hcr Hne Hend;
    [congruence|].
  cbn in Hcr. apply andb_true_iff in Hcr as [Hc Hcr].
  apply negb_true_iff in Hc.
  cbn [Py.splitlines_from]. rewrite Hc.
  destruct (Py.is_LF c) eqn:Hlf.
  - apply is_LF_eq in Hlf as ->. cbn [map concat].
    destruct rest as [|c' rest'].
    + cbn. now rewrite app_nil_r.
    + rewrite IH;
        [ now rewrite <- app_assoc
        | exact Hcr
        | discriminate
        | rewrite <- (ends_with_linebreak_cons Py.LF);
            [exact Hend | discriminate] ].
  - destruct rest as [|c' rest'].
    + unfold ends_with_linebreak, Py.is_linebreak in Hend. cbn in Hend.
      rewrite Hlf, Hc in Hend. discriminate Hend.
    + rewrite IH;
        [ now rewrite <- app_assoc
        | exact Hcr
        | discriminate
        | rewrite <- (ends_with_linebreak_cons c);
            [exact Hend | discriminate] ].
Qed.

Lemma join_splitlines (prefix : list byte) :
  cr_free prefix = true ->
  prefix = [] \/ ends_with_linebreak prefix = true ->
  concat (map (fun s => s ++ [Py.LF]) (Py.splitlines prefix)) = prefix.
Proof.
  intros Hcr [-> | Hend]; [reflexivity|].
  unfold Py.splitlines. apply (join_splitlines_from prefix []); auto.
  intros ->. discriminate Hend.
Qed.

Lemma rebuild_finished (lines : list (list byte)) :
  rebuild lines false = concat (map (fun s => s ++ [Py.LF]) lines).
Proof.
  destruct lines as [|x l _] using rev_ind; [reflexivity|].
  unfold rebuild, Py.but_last, Py.last_line.
  rewrite removelast_last, last_last, map_app, concat_app. cbn.
  rewrite app_nil_r. destruct l; reflexivity.
Qed.

Lemma rebuild_marked (lines : list (list byte)) (seg : list byte) :
  rebuild (lines ++ [seg]) true
  = concat (map (fun s => s ++ [Py.LF]) lines) ++ seg.
Proof.
  unfold rebuild, Py.but_last, Py.last_line.
  rewrite removelast_last, last_last, app_nil_r.
  destruct lines; reflexivity.
Qed.

Lemma cr_free_app (a b : list byte) :
  cr_free (a ++ b) = cr_free a && cr_free b.
Proof. apply forallb_app. Qed.

Lemma cr_free_ends_LF (prefix : list byte) :
  cr_free prefix = true -> ends_with_linebreak prefix = true ->
  Py.truthy prefix && Py.last_is_not_LF prefix = false.
Proof.
  intros Hcr Hend. destruct prefix as [|x p _] using rev_ind;
    [reflexivity|].
  rewrite ends_with_linebreak_snoc in Hend.
  rewrite cr_free_app in Hcr. apply andb_true_iff in Hcr as [_ Hx].
  cbn in Hx. rewrite andb_true_r in Hx. apply negb_true_iff in Hx.
  unfold Py.is_linebreak in Hend. rewrite Hx, orb_false_r in Hend.
  rewrite truthy_snoc, last_is_not_LF_snoc, Hend. reflexivity.
Qed.

(** One call on a buffer without carriage returns: what is written is
    the rendering of a group of raw lines, and the group followed by the
    new retained fragment spells the old fragment followed by the
    chunk.  A forced call retains nothing. *)
Lemma framer_call_rebuilds (rt : Runtime) (t : Task) (tr : list event)
    (data : list byte) (atype : string) (d : Z) (force_finish : bool) :
  cr_free (retained t (Some d) atype ++ data) = true ->
  exists (lines : list (list byte)) (marked : bool) (kept : list byte)
         (tr' : list event),
    print_annotated_lines rt (FBytes data) atype (Some d) force_finish t tr
    = (Ok (render rt t atype (lines, marked)),
       set_fd_to_buffer (<[(d, atype) := kept]> (fd_to_buffer t)) t, tr') /\
    rebuild lines marked ++ kept = retained t (Some d) atype ++ data /\
    (force_finish = true -> kept = []) /\
    (marked = true -> buffer_lines t = false \/ force_finish = true).
Proof.
  intros Hcr.
  pose proof (print_annotated_lines_bytes rt t tr data atype (Some d)
                force_finish) as Hrun.
  cbv zeta in Hrun. rewrite Hrun. clear Hrun.
  destruct (tail_fragment (retained t (Some d) atype ++ data))
    as (prefix & seg & Hsplit & Hseg & Hpre).
  rewrite Hsplit in *. clear Hsplit.
  rewrite cr_free_app in Hcr. apply andb_true_iff in Hcr as [Hcp Hcs].
  cbn [is_set andb].
  destruct seg as [|x s _] using rev_ind.
  - (* the buffer is empty or ends with LF: nothing is unfinished *)
    rewrite app_nil_r.
    assert (Hu : Py.truthy prefix && Py.last_is_not_LF prefix = false).
    { destruct Hpre as [-> | Hend]; [reflexivity|].
      now apply cr_free_ends_LF. }
    rewrite Hu. cbn [andb negb].
    exists (Py.splitlines prefix), false, [].
    destruct (Py.splitlines prefix) as [|l0 ls] eqn:Hl.
    + exists tr. split; [reflexivity|]. rewrite app_nil_r.
      pose proof (join_splitlines prefix Hcp Hpre) as Hj. rewrite Hl in Hj.
      split; [exact Hj|]. split; [reflexivity | discriminate].
    + eexists. split; [reflexivity|]. rewrite app_nil_r.
      rewrite rebuild_finished, <- Hl.
      split; [now apply join_splitlines|].
      split; [reflexivity | discriminate].
  - (* an unterminated rest [s ++ [x]] *)
    pose proof (no_linebreak_snoc _ _ Hseg) as Hx.
    apply not_linebreak_inv in Hx as [Hlf _].
    rewrite app_assoc, truthy_snoc, last_is_not_LF_snoc, Hlf.
    rewrite <- app_assoc. cbn [negb andb].
    rewrite (splitlines_snoc_fragment prefix (s ++ [x]) Hpre Hseg).
    assert (Hcons : match s ++ [x] with [] => [] | _ :: _ => [s ++ [x]] end
                    = [s ++ [x]]) by (destruct s; reflexivity).
    rewrite Hcons. clear Hcons.
    destruct (buffer_lines t && negb force_finish) eqn:Hhold.
    + (* held back *)
      cbn [negb andb]. unfold Py.but_last, Py.last_line.
      rewrite removelast_last, last_last.
      exists (Py.splitlines prefix), false, (s ++ [x]).
      apply andb_true_iff in Hhold as [_ Hforce].
      apply negb_true_iff in Hforce.
      destruct (Py.splitlines prefix) as [|l0 ls] eqn:Hl.
      * exists tr. split; [reflexivity|].
        pose proof (join_splitlines prefix Hcp Hpre) as Hj. rewrite Hl in Hj.
        cbn in Hj. rewrite <- Hj. cbn.
        split; [reflexivity|]. split; [congruence | discriminate].
      * eexists. split; [reflexivity|].
        rewrite rebuild_finished, <- Hl, join_splitlines by auto.
        split; [reflexivity|]. split; [congruence | discriminate].
    + (* written with the mark *)
      cbn [negb andb].
      exists (Py.splitlines prefix ++ [s ++ [x]]), true, [].
      destruct (Py.splitlines prefix ++ [s ++ [x]]) as [|l0 ls] eqn:Hl.
      * destruct (Py.splitlines prefix); discriminate Hl.
      * eexists. split; [reflexivity|]. rewrite <- Hl.
        rewrite rebuild_marked, join_splitlines, app_nil_r by auto.
        split; [reflexivity|]. split; [reflexivity|].
        intros _. apply andb_false_iff in Hhold as [Hb | Hf];
          [now left | right; now apply negb_false_iff in Hf].
Qed.

Lemma render_frame (rt : Runtime) (t : Task) (atype : string)
    (m : gmap (Z * string) (list byte)) (group : list (list byte) * bool) :
  render rt (set_fd_to_buffer m t) atype group = render rt t atype group.
Proof. reflexivity. Qed.

(** The calls for a whole stream without carriage returns: the writes
    are the renderings of groups of raw lines that, put back together,
    spell the fragment retained at the start followed by the stream. *)
Lemma frame_stream_rebuilds (rt : Runtime) (atype : string) (d : Z)
    (chunks : list (list byte)) :
  forall (t : Task) (tr : list event),
    cr_free (retained t (Some d) atype ++ concat chunks) = true ->
    exists groups : list (list (list byte) * bool),
      result_of (frame_stream rt atype d chunks t tr)
      = Ok (map (render rt t atype) groups) /\
      concat (map (fun g => rebuild (fst g) (snd g)) groups)
      = retained t (Some d) atype ++ concat chunks /\
      retained (task_of (frame_stream rt atype d chunks t tr)) (Some d) atype
      = [].
Proof.
  induction chunks as [|chunk rest IH]; intros t tr Hcr.
  - cbn [concat] in *.
    destruct (framer_call_rebuilds rt t tr [] atype d true Hcr)
      as (lines & marked & kept & tr' & Hrun & Hre & Hkept & _).
    specialize (Hkept eq_refl). subst kept.
    exists [(lines, marked)].
    cbn [frame_stream]. unfold bind, ret, result_of, task_of.
    rewrite Hrun. cbn. rewrite app_nil_r in *.
    split; [reflexivity|]. split; [exact Hre|].
    now rewrite lookup_insert_eq.
  - cbn [concat] in *. rewrite app_assoc in Hcr.
    pose proof Hcr as Hcr1. rewrite cr_free_app in Hcr1.
    apply andb_true_iff in Hcr1 as [Hcr1 Hcr2].
    destruct (framer_call_rebuilds rt t tr chunk atype d false Hcr1)
      as (lines & marked & kept & tr' & Hrun & Hre & _ & _).
    set (t1 := set_fd_to_buffer (<[(d, atype) := kept]> (fd_to_buffer t)) t)
      in *.
    assert (Hret1 : retained t1 (Some d) atype = kept).
    { unfold retained, t1. cbn. now rewrite lookup_insert_eq. }
    assert (Hcr' : cr_free (retained t1 (Some d) atype ++ concat rest) = true).
    { rewrite Hret1, cr_free_app, Hcr2, andb_true_r.
      rewrite <- Hre, cr_free_app in Hcr1.
      now apply andb_true_iff in Hcr1 as [_ Hk]. }
    destruct (IH t1 tr' Hcr') as (groups & Hres & Hcat & Hfinal).
    exists ((lines, marked) :: groups).
    cbn [frame_stream]. unfold bind, ret, result_of, task_of in *.
    rewrite Hrun.
    destruct (frame_stream rt atype d rest t1 tr') as [[[outs|e] t2] tr2];
      cbn [fst snd] in *; [| discriminate Hres].
    injection Hres as ->.
    split; [| split].
    + cbn [map]. f_equal.
    + cbn [map concat fst snd]. rewrite Hcat, Hret1.
      now rewrite app_assoc, Hre, <- app_assoc.
    + exact Hfinal.
Qed.

(** * Further properties *)

(** ** Invariants of histories *)

Section Steps.

Variable R : state -> state -> Prop.
Hypothesis R_refl : forall s, R s s.
Hypothesis R_trans : forall s1 s2 s3, R s1 s2 -> R s2 s3 -> R s1 s3.

Lemma steps_in_ret {A : Type} (a : A) : steps_in R (ret a).
Proof. intros t tr. apply R_refl. Qed.

Lemma steps_in_raise {A : Type} (e : exn) : steps_in R (@raise A e).
Proof. intros t tr. apply R_refl. Qed.

Lemma steps_in_get : steps_in R get.
Proof. intros t tr. apply R_refl. Qed.

Lemma steps_in_modify (f : Task -> Task) :
  (forall t tr, R (t, tr) (f t, tr)) -> steps_in R (modify f).
Proof. intros Hf t tr. apply Hf. Qed.

Lemma steps_in_emit (e : event) :
  (forall t tr, R (t, tr) (t, tr ++ [e])) -> steps_in R (emit e).
Proof. intros He t tr. apply He. Qed.

Lemma steps_in_bind {A B : Type} (m : M A) (k : A -> M B) :
  steps_in R m -> (forall a, steps_in R (k a)) -> steps_in R (bind m k).
Proof.
  intros Hm Hk t tr. unfold bind.
  specialize (Hm t tr). unfold task_of, trace_of in *.
  destruct (m t tr) as [[[a|e] t'] tr']; cbn [fst snd] in *.
  - eapply R_trans; [exact Hm | apply Hk].
  - exact Hm.
Qed.

Lemma steps_in_when (cond : bool) (body : M unit) :
  steps_in R body -> steps_in R (when cond body).
Proof. intros Hb. destruct cond; [exact Hb | apply steps_in_ret]. Qed.

(** A history of methods that each step within [R] stays within [R]. *)
Lemma run_methods_steps (rt : Runtime) (ms : list method) :
  (forall m, In m ms -> steps_in R (invoke rt m)) ->
  forall t tr, R (t, tr) (run_methods rt ms t tr).
Proof.
  induction ms as [|m rest IH]; intros Hall t tr; cbn [run_methods].
  - apply R_refl.
  - eapply R_trans.
    + apply (Hall m). now left.
    + apply IH. intros m' Hin. apply Hall. now right.
Qed.

End Steps.

(** One step of an invariant argument: [on_modify] and [on_emit] settle
    what an assignment and a collaborator call do to the relation. *)
Ltac steps_step Hrefl Htrans on_modify on_emit :=
  match goal with
  | |- steps_in _ (bind _ _) =>
      apply (steps_in_bind _ Htrans); [| intros ?]
  | |- steps_in _ (when _ _) => apply (steps_in_when _ Hrefl)
  | |- steps_in _ (modify _) =>
      apply steps_in_modify; intros ? ?; on_modify
  | |- steps_in _ (emit _) =>
      apply steps_in_emit; intros ? ?; on_emit
  | |- steps_in _ (ret _) => apply (steps_in_ret _ Hrefl)
  | |- steps_in _ (raise _) => apply (steps_in_raise _ Hrefl)
  | |- steps_in _ get => apply (steps_in_get _ Hrefl)
  | |- steps_in _ (match ?x with _ => _ end) => destruct x
  | |- steps_in _ (let '(_, _) := ?x in _) => destruct x
  end.

Ltac unfold_methods :=
  unfold start, timedout, interrupted, cancel, running, handle_stdin,
    handle_stdout, handle_stderr, report;
  unfold _kill, close_stdin, close_stdout, close_stderr,
    print_annotated_lines, log_exception;
  unfold add_pre, set_retained, sink_write, sink_flush, append_failure.

Ltac steps Hrefl Htrans on_modify on_emit :=
  unfold_methods; repeat steps_step Hrefl Htrans on_modify on_emit.

Lemma failures_grow_refl (s : state) : failures_grow s s.
Proof. exists []. now rewrite app_nil_r. Qed.

Lemma failures_grow_trans (s1 s2 s3 : state) :
  failures_grow s1 s2 -> failures_grow s2 s3 -> failures_grow s1 s3.
Proof.
  intros [m1 H1] [m2 H2]. exists (m1 ++ m2). now rewrite H2, H1, app_assoc.
Qed.

Lemma invoke_failures_grow (rt : Runtime) (m : method) :
  steps_in failures_grow (invoke rt m).
Proof.
  destruct m; cbn [invoke];
    steps failures_grow_refl failures_grow_trans
      ltac:(first [ exists []; cbn; now rewrite app_nil_r
                  | eexists; cbn; reflexivity ])
      ltac:(exists []; cbn; now rewrite app_nil_r).
Qed.

(** X1: the failure list is append-only: whatever methods are invoked on
    a task, in whatever order and with whatever answers of the outside
    world, the failures it had are still there, in order, at the front
    of its failure list. *)
Theorem failures_append_only (rt : Runtime) (ms : list method) (t : Task)
    (tr : list event) :
  exists more,
    failures (fst (run_methods rt ms t tr)) = failures t ++ more.
Proof.
  apply (run_methods_steps failures_grow failures_grow_refl
           failures_grow_trans rt ms).
  intros m _. apply invoke_failures_grow.
Qed.

Lemma killed_stays_refl (s : state) : killed_stays s s.
Proof. intros H. exact H. Qed.

Lemma killed_stays_trans (s1 s2 s3 : state) :
  killed_stays s1 s2 -> killed_stays s2 s3 -> killed_stays s1 s3.
Proof. unfold killed_stays. auto. Qed.

Lemma invoke_killed_stays (rt : Runtime) (m : method) :
  steps_in killed_stays (invoke rt m).
Proof.
  destruct m; cbn [invoke];
    steps killed_stays_refl killed_stays_trans
      ltac:(unfold killed_stays; cbn; auto)
      ltac:(unfold killed_stays; cbn; auto).
Qed.

(** X2: once [killed] is true it never reverts: no history of method
    invocations clears it. *)
Theorem killed_never_reverts (rt : Runtime) (ms : list method) (t : Task)
    (tr : list event) (Hkilled : killed t = true) :
  killed (fst (run_methods rt ms t tr)) = true.
Proof.
  apply (run_methods_steps killed_stays killed_stays_refl
           killed_stays_trans rt ms); [| exact Hkilled].
  intros m _. apply invoke_killed_stays.
Qed.

Lemma killed_never_reverts_witness :
  killed (fst (run_methods python2
                 [MTimedout; MStart 1 None None ∅ "askpass" (0, 0) child 0;
                  MRunning (Some 0); MCancel]
                 (set_killed true unstarted) [])) = true.
Proof.
  apply (killed_never_reverts python2 _ (set_killed true unstarted) []).
  reflexivity.
Defined.

Lemma null_slots_stay_refl (s : state) : null_slots_stay s s.
Proof. repeat split; auto. Qed.

Lemma null_slots_stay_trans (s1 s2 s3 : state) :
  null_slots_stay s1 s2 -> null_slots_stay s2 s3 -> null_slots_stay s1 s3.
Proof. unfold null_slots_stay. intuition. Qed.

Lemma invoke_null_slots_stay (rt : Runtime) (m : method) :
  is_start m = false -> steps_in null_slots_stay (invoke rt m).
Proof.
  destruct m; cbn [invoke is_start]; intros Hm; try discriminate Hm;
    steps null_slots_stay_refl null_slots_stay_trans
      ltac:(unfold null_slots_stay; cbn; auto)
      ltac:(unfold null_slots_stay; cbn; auto).
Qed.

(** X3: null is terminal for a slot: in a history without [start], a
    slot that is null stays null.  This holds for each of the three
    slots, whatever the handlers are answered. *)
Theorem null_slot_is_terminal (rt : Runtime) (ms : list method) (t : Task)
    (tr : list event)
    (Hms : forallb (fun m => negb (is_start m)) ms = true) :
  let t' := fst (run_methods rt ms t tr) in
  (stdin t = None -> stdin t' = None) /\
  (stdout t = None -> stdout t' = None) /\
  (stderr t = None -> stderr t' = None).
Proof.
  apply (run_methods_steps null_slots_stay null_slots_stay_refl
           null_slots_stay_trans rt ms).
  intros m Hin. apply invoke_null_slots_stay.
  rewrite forallb_forall in Hms. specialize (Hms m Hin).
  now apply negb_true_iff in Hms.
Qed.

Lemma null_slot_is_terminal_witness :
  stdout (fst (run_methods python2
                 [MHandleStdout 4 (IoOk (Py.encode "late")); MTimedout;
                  MHandleStdout 4 (IoErr EBADF_error); MRunning (Some 1)]
                 drained [])) = None.
Proof.
  refine (proj1 (proj2 (null_slot_is_terminal python2 _ drained [] _)) _);
    reflexivity.
Defined.

Lemma reaped_stays_refl (s : state) : reaped_stays s s.
Proof. intros H. auto. Qed.

Lemma reaped_stays_trans (s1 s2 s3 : state) :
  reaped_stays s1 s2 -> reaped_stays s2 s3 -> reaped_stays s1 s3.
Proof.
  unfold reaped_stays. intros H12 H23 H1.
  destruct (H12 H1) as [P2 E2]. destruct (H23 P2) as [P3 E3].
  split; [exact P3 | now rewrite E3].
Qed.

Lemma running_reaped_stays (poll : option Z) :
  steps_in reaped_stays (running poll;; ret tt).
Proof.
  intros t tr Hp. cbn [fst] in Hp. unfold running. run_m.
  destruct (is_set (stdin t) || is_set (stdout t) || is_set (stderr t));
    cbn; [auto|].
  rewrite Hp. cbn. auto.
Qed.

Lemma invoke_reaped_stays (rt : Runtime) (m : method) :
  is_start m = false -> steps_in reaped_stays (invoke rt m).
Proof.
  destruct m; cbn [invoke is_start]; intros Hm; try discriminate Hm;
    try apply running_reaped_stays;
    steps reaped_stays_refl reaped_stays_trans
      ltac:(unfold reaped_stays; cbn; auto)
      ltac:(unfold reaped_stays; cbn; auto).
Qed.

(** X4: a task without a process handle (not started, or reaped by
    [running]) keeps its exit status: in a history without [start] the
    handle stays absent and [exitstatus] is never overwritten. *)
Theorem exit_status_is_final (rt : Runtime) (ms : list method) (t : Task)
    (tr : list event)
    (Hms : forallb (fun m => negb (is_start m)) ms = true)
    (Hreaped : proc t = None) :
  proc (fst (run_methods rt ms t tr)) = None /\
  exitstatus (fst (run_methods rt ms t tr)) = exitstatus t.
Proof.
  apply (run_methods_steps reaped_stays reaped_stays_refl
           reaped_stays_trans rt ms); [| exact Hreaped].
  intros m Hin. apply invoke_reaped_stays.
  rewrite forallb_forall in Hms. specialize (Hms m Hin).
  now apply negb_true_iff in Hms.
Qed.

Lemma exit_status_is_final_witness :
  let reaped := task_of (running (Some 3) drained []) in
  exitstatus reaped = Some 3 /\
  exitstatus (fst (run_methods python2
                     [MRunning (Some 0); MTimedout; MRunning None]
                     reaped [])) = Some 3.
Proof.
  cbv zeta. split; [reflexivity|].
  refine (proj2 (exit_status_is_final python2 _
                   (task_of (running (Some 3) drained [])) [] _ _));
    reflexivity.
Defined.

(** ** Signals *)

Lemma no_new_kill_refl (s : state) : no_new_kill s s.
Proof. reflexivity. Qed.

Lemma no_new_kill_trans (s1 s2 s3 : state) :
  no_new_kill s1 s2 -> no_new_kill s2 s3 -> no_new_kill s1 s3.
Proof. unfold no_new_kill. congruence. Qed.

Lemma filter_kill_snoc (tr : list event) (e : event) :
  List.filter is_kill (tr ++ [e])
  = List.filter is_kill tr ++ (if is_kill e then [e] else []).
Proof. rewrite List.filter_app. cbn. now destruct (is_kill e). Qed.

Ltac no_kill_emit :=
  unfold no_new_kill; cbn [fst snd];
  rewrite ?filter_kill_snoc; cbn [is_kill]; now rewrite ?app_nil_r.

(** X5: a task signals nothing but its own child: one invocation adds
    kill events to the trace only when it is [_kill], or [timedout] or
    [interrupted] on a task not yet killed, and the task holds a process
    handle; it then adds exactly one, [SIGKILL] to the negated pid of
    that process (its process group).  No handler, poll or report ever
    signals. *)
Theorem kills_only_on_request (rt : Runtime) (m : method) (t : Task)
    (tr : list event) :
  List.filter is_kill (trace_of (invoke rt m t tr))
  = List.filter is_kill tr ++ kills_of m t.
Proof.
  assert (Hquiet : forall m0, kills_of m0 t = [] ->
                     (forall t0, kills_of m0 t0 = []) ->
                     steps_in no_new_kill (invoke rt m0) ->
                     List.filter is_kill (trace_of (invoke rt m0 t tr))
                     = List.filter is_kill tr ++ kills_of m0 t).
  { intros m0 Hk _ Hs. rewrite Hk, app_nil_r. apply (Hs t tr). }
  destruct m;
    try (apply Hquiet; [reflexivity | reflexivity |];
         cbn [invoke];
         steps no_new_kill_refl no_new_kill_trans
           ltac:(reflexivity) ltac:(no_kill_emit)).
  - (* _kill *)
    cbn [invoke kills_of]. unfold _kill, kill_of. run_m.
    destruct (proc t); cbn; [| now rewrite app_nil_r].
    now rewrite filter_kill_snoc.
  - (* timedout *)
    cbn [invoke kills_of]. unfold timedout, _kill, kill_of. run_m.
    destruct (killed t); cbn; [now rewrite app_nil_r|].
    destruct (proc t); cbn; [| now rewrite app_nil_r].
    now rewrite filter_kill_snoc.
  - (* interrupted *)
    cbn [invoke kills_of]. unfold interrupted, _kill, kill_of. run_m.
    destruct (killed t); cbn; [now rewrite app_nil_r|].
    destruct (proc t); cbn; [| now rewrite app_nil_r].
    now rewrite filter_kill_snoc.
Qed.

(** X6: [timedout] followed by [interrupted] (or the reverse) on a task
    that holds a process handle and is not yet killed signals once and
    records only the first reason.  Without a process handle the
    [killed] flag is never set, so both reasons are recorded. *)
Theorem kill_requests_compose (t : Task) (tr : list event)
    (Hlive : killed t = false) :
  (timedout;; interrupted) t tr
  = match proc t with
    | Some p =>
        (Ok tt,
         set_failures (failures t ++ ["Timed out"%string]) (set_killed true t),
         tr ++ [EKill (- pid p) SIGKILL])
    | None =>
        (Ok tt,
         set_failures (failures t ++ ["Timed out"; "Interrupted"]%string) t, tr)
    end /\
  (interrupted;; timedout) t tr
  = match proc t with
    | Some p =>
        (Ok tt,
         set_failures (failures t ++ ["Interrupted"%string]) (set_killed true t),
         tr ++ [EKill (- pid p) SIGKILL])
    | None =>
        (Ok tt,
         set_failures (failures t ++ ["Interrupted"; "Timed out"]%string) t, tr)
    end.
Proof.
  unfold timedout, interrupted, _kill. run_m. rewrite Hlive.
  destruct (proc t) as [p|] eqn:Hp;
    repeat (progress (cbn; rewrite ?Hlive, ?Hp)).
  - split; reflexivity.
  - unfold set_failures; cbn. rewrite <- !app_assoc. split; reflexivity.
Qed.

Lemma kill_requests_compose_witness :
  failures (task_of ((timedout;; interrupted) draining []))
    = ["Timed out"%string] /\
  failures (task_of ((timedout;; interrupted) unstarted []))
    = ["Timed out"; "Interrupted"]%string.
Proof.
  pose proof (kill_requests_compose draining [] eq_refl) as [Hd _].
  pose proof (kill_requests_compose unstarted [] eq_refl) as [Hu _].
  rewrite Hd, Hu. split; reflexivity.
Defined.

(** ** Supervisor: polling and closing *)

(** X7: with the three slots closed and the exit code not yet
    available, [running] follows the kill convention: on a killed task
    it reports termination ([False]) with exit status [-SIGKILL], on any
    other it reports [True] with the exit status unset.  In both cases
    the process handle is kept and no failure is appended. *)
Theorem running_without_exit_code (t : Task) (tr : list event) (p : Popen)
    (Hin : stdin t = None) (Hout : stdout t = None) (Herr : stderr t = None)
    (Hproc : proc t = Some p) :
  running None t tr
  = (Ok (Some (negb (killed t))),
     set_exitstatus (if killed t then Some (- SIGKILL) else None) t,
     tr ++ [EPoll (pid p)]) /\
  proc (task_of (running None t tr)) = Some p /\
  failures (task_of (running None t tr)) = failures t.
Proof.
  unfold running. run_m. rewrite Hin, Hout, Herr, Hproc. cbn.
  destruct (killed t); cbn; repeat split; auto.
Qed.

Lemma running_without_exit_code_witness :
  result_of (running None (set_killed true drained) []) = Ok (Some false) /\
  exitstatus (task_of (running None (set_killed true drained) []))
    = Some (-9) /\
  result_of (running None drained []) = Ok (Some true).
Proof.
  pose proof (running_without_exit_code (set_killed true drained) [] child
                eq_refl eq_refl eq_refl eq_refl) as [Hk _].
  pose proof (running_without_exit_code drained [] child
                eq_refl eq_refl eq_refl eq_refl) as [Hl _].
  rewrite Hk, Hl. repeat split; reflexivity.
Defined.

(** X8: the exit code is collected once.  After [running] has taken an
    exit code and released the process handle, a further call polls
    nothing, appends no second failure entry and leaves the task as it
    is; it falls off the end of the method and returns [None], not
    [False]. *)
Theorem running_collects_once (t : Task) (tr : list event) (p : Popen)
    (code : Z) (poll : option Z)
    (Hin : stdin t = None) (Hout : stdout t = None) (Herr : stderr t = None)
    (Hproc : proc t = Some p) :
  let first := running (Some code) t tr in
  running poll (task_of first) (trace_of first)
  = (Ok None, task_of first, trace_of first).
Proof.
  cbv zeta. unfold running. run_m. rewrite Hin, Hout, Herr, Hproc. cbn.
  destruct (code <? 0); cbn; [rewrite Hin, Hout, Herr; reflexivity|].
  destruct (code >? 0); cbn; rewrite Hin, Hout, Herr; reflexivity.
Qed.

Lemma running_collects_once_witness :
  let first := running (Some 2) drained [] in
  running (Some 2) (task_of first) (trace_of first)
  = (Ok None, task_of first, trace_of first) /\
  failures (task_of first) = ["Exited with error code 2"%string].
Proof.
  cbv zeta. split; [| reflexivity].
  exact (running_collects_once drained [] child 2 (Some 2)
           eq_refl eq_refl eq_refl eq_refl).
Defined.

(** X9: closing is idempotent: for each of the three slots, closing
    twice in a row does exactly what closing once does, on every task
    (the second call finds the slot, and the writer's file, null). *)
Theorem close_is_idempotent (t : Task) (tr : list event) :
  (close_stdin;; close_stdin) t tr = close_stdin t tr /\
  (close_stdout;; close_stdout) t tr = close_stdout t tr /\
  (close_stderr;; close_stderr) t tr = close_stderr t tr.
Proof.
  unfold close_stdin, close_stdout, close_stderr. run_m.
  split; [| split].
  - destruct (stdin t) eqn:Hs; cbn; [reflexivity | now rewrite Hs].
  - destruct (stdout t) eqn:Hs, (outfile t) eqn:Hf; cbn;
      rewrite ?Hs, ?Hf; cbn; rewrite ?Hs, ?Hf; reflexivity.
  - destruct (stderr t) eqn:Hs, (errfile t) eqn:Hf; cbn;
      rewrite ?Hs, ?Hf; cbn; rewrite ?Hs, ?Hf; reflexivity.
Qed.

(** ** Supervisor: starting *)

(** X10: [start] wires the child's pipes: the output and error slots
    are always opened and registered for reading; the input slot is
    opened and registered for writing only when the task has a
    non-empty input buffer, and otherwise the child's stdin is closed
    at once, the feeder is never registered and the slot is left as it
    was.  The files of the writer are opened first, if there is one. *)
Theorem start_wires_slots (t : Task) (tr : list event) (nodenum : Z)
    (w : option Writer) (sock : option string) (env : gmap string string)
    (exe : string) (files : Z * Z) (ch : Popen) (now : Z) :
  let o := start nodenum w sock env exe files ch now t tr in
  let feeding :=
    match inputbuffer t with Some buf => Py.truthy buf | None => false end in
  result_of o = Ok tt /\
  proc (task_of o) = Some ch /\
  timestamp (task_of o) = Some now /\
  stdout (task_of o) = Some (proc_stdout ch) /\
  stderr (task_of o) = Some (proc_stderr ch) /\
  stdin (task_of o) = (if feeding then Some (proc_stdin ch) else stdin t) /\
  outfile (task_of o)
    = match w with Some _ => Some (fst files) | None => outfile t end /\
  errfile (task_of o)
    = match w with Some _ => Some (snd files) | None => errfile t end /\
  trace_of o
    = tr
      ++ match w with
         | Some wr => [EWriterOpen wr (pretty_host t)]
         | None => []
         end
      ++ [EPopen (cmd t) (child_environ env nodenum exe sock t)]
      ++ (if feeding then [ERegisterWrite (proc_stdin ch) CbStdin]
          else [EClose (proc_stdin ch)])
      ++ [ERegisterRead (proc_stdout ch) CbStdout;
          ERegisterRead (proc_stderr ch) CbStderr].
Proof.
  cbv zeta. unfold start. run_m.
  destruct w as [wr|]; cbn;
    destruct (match inputbuffer t with
              | Some buf => Py.truthy buf
              | None => false
              end); cbn;
    rewrite <- ?app_assoc; cbn; repeat split; reflexivity.
Qed.

(** X11: the child's environment: [PSSH_NODENUM], [PSSH_HOST] and
    [SSH_ASKPASS] are always set, overriding inherited values;
    [PSSH_ASKPASS_SOCKET] and [PSSH_ASKPASS_VERBOSE] are set only when a
    non-empty socket is given, respectively when the task is verbose,
    and are inherited otherwise; an inherited [DISPLAY] is kept and a
    missing one becomes ["pssh-gibberish"]; every other variable is
    inherited unchanged. *)
Theorem child_environ_spec (env : gmap string string) (nodenum : Z)
    (exe : string) (sock : option string) (t : Task) :
  let e := child_environ env nodenum exe sock t in
  e !! "PSSH_NODENUM"%string = Some (Py.str_of_int nodenum) /\
  e !! "PSSH_HOST"%string = Some (host t) /\
  e !! "SSH_ASKPASS"%string = Some exe /\
  e !! "PSSH_ASKPASS_SOCKET"%string
    = (if Py.truthy_str sock then sock
       else env !! "PSSH_ASKPASS_SOCKET"%string) /\
  e !! "PSSH_ASKPASS_VERBOSE"%string
    = (if verbose t then Some "1"%string
       else env !! "PSSH_ASKPASS_VERBOSE"%string) /\
  e !! "DISPLAY"%string
    = Some (default "pssh-gibberish"%string (env !! "DISPLAY"%string)) /\
  (forall k : string,
      k <> "PSSH_NODENUM"%string -> k <> "PSSH_HOST"%string ->
      k <> "SSH_ASKPASS"%string -> k <> "PSSH_ASKPASS_SOCKET"%string ->
      k <> "PSSH_ASKPASS_VERBOSE"%string -> k <> "DISPLAY"%string ->
      e !! k = env !! k).
Proof.
  cbv zeta. unfold child_environ.
  assert (Hsock : Py.truthy_str sock = true ->
                  Some (default EmptyString sock) = sock).
  { destruct sock as [[|] |]; cbn; intros H; congruence. }
  destruct (Py.truthy_str sock) eqn:Hs; destruct (verbose t);
    (match goal with
     | |- context [match ?m !! "DISPLAY"%string with _ => _ end] =>
         let Hd := fresh "Hd" in
         destruct (m !! "DISPLAY"%string) eqn:Hd;
         simplify_map_eq
     end);
    rewrite ?Hsock by reflexivity;
    repeat split; try reflexivity; intros; simplify_map_eq; reflexivity.
Qed.

(** ** Input feeder: short writes *)

Lemma slice_in_range (l : list byte) (a b : Z) :
  0 <= a <= b -> b <= Py.len l ->
  Py.slice l a b = firstn (Z.to_nat (b - a)) (skipn (Z.to_nat a) l).
Proof.
  intros Ha Hb. unfold Py.slice, Py.clamp.
  destruct (Z.ltb_spec a 0); [lia|]. destruct (Z.ltb_spec b 0); [lia|].
  now rewrite !Z.min_l by lia.
Qed.

Lemma slice_clamped (l : list byte) (a b : Z) :
  0 <= a <= Py.len l -> a <= b ->
  Py.slice l a b = Py.slice l a (Z.min b (Py.len l)).
Proof.
  intros Ha Hb. unfold Py.slice, Py.clamp.
  destruct (Z.ltb_spec a 0); [lia|]. destruct (Z.ltb_spec b 0); [lia|].
  destruct (Z.ltb_spec (Z.min b (Py.len l)) 0); [lia|].
  replace (Z.min (Z.min b (Py.len l)) (Py.len l)) with (Z.min b (Py.len l))
    by lia.
  reflexivity.
Qed.

Lemma firstn_then_more {A : Type} (p q : nat) (x : list A) :
  firstn p x ++ firstn q (skipn p x) = firstn (p + q) x.
Proof.
  revert x. induction p as [|p IH]; intros x; [reflexivity|].
  destruct x as [|a x]; cbn.
  - now rewrite firstn_nil.
  - now rewrite IH.
Qed.

(** Adjacent slices join. *)
Lemma slice_app (l : list byte) (a b c : Z) :
  0 <= a <= b -> b <= c -> c <= Py.len l ->
  Py.slice l a b ++ Py.slice l b c = Py.slice l a c.
Proof.
  intros Hab Hbc Hc.
  rewrite !slice_in_range by lia.
  replace (Z.to_nat b) with (Z.to_nat (b - a) + Z.to_nat a)%nat by lia.
  rewrite <- skipn_skipn, firstn_then_more. f_equal. lia.
Qed.

(** The part of an offered slice that a short write takes is itself a
    slice. *)
Lemma firstn_slice (l : list byte) (a b n : Z) :
  0 <= a -> 0 <= n -> a + n <= b -> b <= Py.len l ->
  firstn (Z.to_nat n) (Py.slice l a b) = Py.slice l a (a + n).
Proof.
  intros Ha Hn Hab Hb.
  rewrite !slice_in_range by lia.
  rewrite firstn_firstn. f_equal. lia.
Qed.

Lemma slice_empty (l : list byte) (a : Z) :
  0 <= a <= Py.len l -> Py.slice l a a = [].
Proof.
  intros Ha. rewrite slice_in_range by lia.
  now replace (a - a) with 0 by lia.
Qed.

(** One callback against a pipe that takes at most [cap] bytes. *)
Lemma feed_capped_step (fd cap : Z) (t : Task) (input : list byte) :
  inputbuffer t = Some input ->
  0 <= byteswritten t <= Py.len input ->
  let n := accept cap (offered_chunk t) in
  let o := call (handle_stdin fd (IoOk n)) t in
  inputbuffer (task_of o) = Some input /\
  byteswritten t <= byteswritten (task_of o) <= Py.len input /\
  firstn (Z.to_nat n) (concat (map chunk_of (trace_of o)))
  = Py.slice input (byteswritten t) (byteswritten (task_of o)).
Proof.
  intros Hinput Hrange. cbv zeta.
  unfold offered_chunk, accept. rewrite Hinput. cbn [default].
  unfold handle_stdin. run_m. rewrite Hinput.
  set (s := byteswritten t) in *.
  destruct (Z.ltb_spec s (Py.len input)) as [Hlt | Hge].
  - cbn. rewrite app_nil_r.
    pose proof (len_slice input s BUFFER_SIZE ltac:(lia)
                  ltac:(rewrite BUFFER_SIZE_value; lia)) as Hlen.
    rewrite Hlen.
    assert (HB : 0 < BUFFER_SIZE) by (rewrite BUFFER_SIZE_value; lia).
    split; [cbn; exact Hinput|]. split; [cbn; fold s; lia|].
    cbn [byteswritten set_byteswritten]. rewrite slice_clamped by lia.
    apply firstn_slice; lia.
  - unfold close_stdin. run_m.
    assert (Hs : s = Py.len input) by lia.
    destruct (stdin t); cbn;
      (split; [exact Hinput|]); (split; [fold s; lia|]);
      fold s; rewrite firstn_nil; symmetry; apply slice_empty; lia.
Qed.

(** X12: short writes lose and repeat nothing.  Whatever part of each
    offered chunk the pipe takes, callback after callback, the bytes it
    has taken are, in order, exactly the input buffer from the offset
    the feed started at up to the offset it has reached, and the offset
    never decreases nor passes the end of the buffer. *)
Theorem feeder_sends_input_in_order (fd : Z) (caps : list Z) :
  forall (t : Task) (taken input : list byte)
         (Hinput : inputbuffer t = Some input)
         (Hrange : 0 <= byteswritten t <= Py.len input),
    let t' := fst (feed_capped fd caps t taken) in
    snd (feed_capped fd caps t taken)
    = taken ++ Py.slice input (byteswritten t) (byteswritten t') /\
    byteswritten t <= byteswritten t' <= Py.len input /\
    inputbuffer t' = Some input.
Proof.
  induction caps as [|cap rest IH]; intros t taken input Hinput Hrange;
    cbv zeta; cbn [feed_capped fst snd].
  - rewrite slice_empty by lia. rewrite app_nil_r.
    split; [reflexivity|]. split; [lia | exact Hinput].
  - destruct (feed_capped_step fd cap t input Hinput Hrange)
      as (Hin' & Hoff & Htaken).
    cbv zeta in Hin', Hoff, Htaken.
    rewrite Htaken.
    specialize (IH _ (taken ++ Py.slice input (byteswritten t)
                                  (byteswritten
                                     (task_of
                                        (call
                                           (handle_stdin fd
                                              (IoOk (accept cap
                                                       (offered_chunk t))))
                                           t))))
                  input Hin' ltac:(lia)).
    cbv zeta in IH. destruct IH as (Hsnd & Hoff' & Hin'').
    rewrite Hsnd, <- app_assoc, slice_app by lia.
    split; [reflexivity|]. split; [lia | exact Hin''].
Qed.

Lemma feeder_sends_input_in_order_witness :
  snd (feed_capped 3 [3; 0; 100; 2; 5] draining [])
  = Py.encode "payload" /\
  byteswritten (fst (feed_capped 3 [3; 0; 100; 2; 5] draining [])) = 7.
Proof.
  pose proof (feeder_sends_input_in_order 3 [3; 0; 100; 2; 5] draining []
                (Py.encode "payload") eq_refl
                ltac:(change (0 <= 0 <= 7); lia)) as H.
  cbv zeta in H. destruct H as (Htaken & _).
  split; [| reflexivity].
  rewrite Htaken. reflexivity.
Defined.

(** ** Input feeder: how long it takes *)

Lemma writes_in_snoc_write (tr : list event) (fd : Z) (chunk : list byte) :
  writes_in (tr ++ [EOsWrite fd chunk]) = S (writes_in tr).
Proof.
  unfold writes_in. rewrite List.filter_app, length_app. cbn. lia.
Qed.

(** While input is left at each of them, [k] callbacks answered by full
    writes make [k] writes and advance the offset by [BUFFER_SIZE]
    each, the last one to the end of the input at most. *)
Lemma feed_times_writes (fd : Z) (input : list byte) (k : nat) :
  forall (t : Task) (tr : list event),
    inputbuffer t = Some input ->
    0 <= byteswritten t <= Py.len input ->
    (0 < Z.of_nat k ->
     byteswritten t + (Z.of_nat k - 1) * BUFFER_SIZE < Py.len input) ->
    let o := feed_times k fd t tr in
    result_of o = Ok tt /\
    byteswritten (task_of o)
      = Z.min (byteswritten t + Z.of_nat k * BUFFER_SIZE) (Py.len input) /\
    stdin (task_of o) = stdin t /\
    inputbuffer (task_of o) = Some input /\
    writes_in (trace_of o) = (writes_in tr + k)%nat.
Proof.
  induction k as [|k IH]; intros t tr Hinput Hrange Hleft; cbv zeta.
  - cbn [feed_times]. unfold ret, result_of, task_of, trace_of. cbn.
    repeat split; auto; lia.
  - cbn [feed_times]. unfold bind.
    rewrite BUFFER_SIZE_value in *.
    assert (Hlt : byteswritten t < Py.len input) by lia.
    rewrite (feed_writes t tr fd input Hinput) by lia.
    rewrite BUFFER_SIZE_value.
    set (t1 := set_byteswritten _ t).
    set (tr1 := tr ++ _).
    assert (Hs1 : byteswritten t1
                  = byteswritten t
                    + Z.min 65536 (Py.len input - byteswritten t))
      by reflexivity.
    specialize (IH t1 tr1 Hinput ltac:(rewrite Hs1; lia)).
    rewrite ?BUFFER_SIZE_value in IH.
    specialize (IH ltac:(rewrite Hs1; lia)).
    cbv zeta in IH. destruct IH as (Hres & Hoff & Hslot & Hin & Hcount).
    split; [exact Hres|]. split; [rewrite Hoff, Hs1; lia|].
    split; [exact Hslot|]. split; [exact Hin|].
    rewrite Hcount. unfold tr1. rewrite writes_in_snoc_write. lia.
Qed.

(** X13: the feeder finishes in as many writes as the input has
    chunks.  For an input of [L] bytes fed from offset 0 by full writes,
    each of the first [ceil (L / BUFFER_SIZE)] callbacks makes one write
    and leaves the slot open; after them the offset is [L]; the next
    callback writes nothing and closes and unregisters the slot. *)
Theorem feeder_finishes (fd slot : Z) (t : Task) (tr : list event)
    (input : list byte) (k : nat)
    (Hinput : inputbuffer t = Some input)
    (Hfresh : byteswritten t = 0)
    (Hslot : stdin t = Some slot)
    (Hk : Z.of_nat k = (Py.len input + BUFFER_SIZE - 1) / BUFFER_SIZE) :
  let o := feed_times k fd t tr in
  let o' := feed fd (task_of o) (trace_of o) in
  byteswritten (task_of o) = Py.len input /\
  stdin (task_of o) = Some slot /\
  writes_in (trace_of o) = (writes_in tr + k)%nat /\
  stdin (task_of o') = None /\
  byteswritten (task_of o') = Py.len input /\
  trace_of o' = trace_of o ++ [EUnregister slot; EClose slot].
Proof.
  cbv zeta.
  assert (HL : 0 <= Py.len input) by (unfold Py.len; lia).
  rewrite BUFFER_SIZE_value in Hk.
  assert (Hq : 65536 * Z.of_nat k <= Py.len input + 65535
               < 65536 * Z.of_nat k + 65536).
  { rewrite Hk. replace (Py.len input + 65536 - 1) with (Py.len input + 65535)
      by lia.
    pose proof (Z.mul_div_le (Py.len input + 65535) 65536 ltac:(lia)).
    pose proof (Z.mul_succ_div_gt (Py.len input + 65535) 65536 ltac:(lia)).
    lia. }
  clear Hk.
  destruct (feed_times_writes fd input k t tr Hinput ltac:(lia)
              ltac:(rewrite BUFFER_SIZE_value; lia))
    as (_ & Hoff & Hs & Hin & Hcount).
  rewrite BUFFER_SIZE_value in Hoff.
  assert (Hend : byteswritten (task_of (feed_times k fd t tr))
                 = Py.len input) by lia.
  rewrite (feed_closes _ _ fd slot input Hin ltac:(lia)
             ltac:(now rewrite Hs)).
  unfold task_of, trace_of in *. cbn [fst snd stdin set_stdin byteswritten].
  repeat split; auto. now rewrite Hs.
Qed.

Lemma big_task_started :
  inputbuffer (started big_task) = Some big_input /\
  byteswritten (started big_task) = 0 /\
  stdin (started big_task) = Some 3.
Proof. repeat split. Defined.

Lemma feeder_finishes_witness :
  let o := feed_times 4 3 (started big_task) [] in
  byteswritten (task_of o) = 200000 /\
  writes_in (trace_of o) = 4%nat /\
  stdin (task_of (feed 3 (task_of o) (trace_of o))) = None.
Proof.
  destruct big_task_started as (Hi & Hb & Hs).
  pose proof (feeder_finishes 3 3 (started big_task) [] big_input 4
                Hi Hb Hs
                ltac:(rewrite big_input_len; reflexivity)) as H.
  cbv zeta in H. destruct H as (Hoff & _ & Hcount & Hclosed & _).
  rewrite big_input_len in Hoff.
  split; [exact Hoff|]. split; [exact Hcount | exact Hclosed].
Defined.

(** ** Stream handlers: errors on an open slot *)

(** X14: a fatal write error (any [OSError] but [EINTR]) while input is
    left closes and unregisters the input slot, appends one failure
    entry, and leaves the offset and the other two slots alone: the
    rest of the input is never offered again. *)
Theorem feeder_fatal_error (t : Task) (tr : list event) (fd slot : Z)
    (e : OSError) (input : list byte)
    (Hslot : stdin t = Some slot)
    (Hinput : inputbuffer t = Some input)
    (Hleft : byteswritten t < Py.len input)
    (Hfatal : errno e <> EINTR) :
  let o := handle_stdin fd (IoErr e) t tr in
  result_of o = Ok tt /\
  stdin (task_of o) = None /\
  stdout (task_of o) = stdout t /\
  stderr (task_of o) = stderr t /\
  byteswritten (task_of o) = byteswritten t /\
  failures (task_of o) = failures (task_of (log_exception e t [])) /\
  length (failures (task_of o)) = S (length (failures t)) /\
  trace_of o
    = tr ++ [EOsWrite fd (offered_chunk t); EUnregister slot; EClose slot].
Proof.
  cbv zeta. unfold handle_stdin, close_stdin, log_exception, offered_chunk.
  run_m. rewrite Hinput. cbn [default].
  destruct (Z.ltb_spec (byteswritten t) (Py.len input)); [| lia].
  destruct (Z.eqb_spec (errno e) EINTR); [contradiction|].
  cbn. rewrite Hslot. cbn. rewrite length_app, <- !app_assoc. cbn.
  repeat split; auto; lia.
Qed.

Lemma feeder_fatal_error_witness :
  let o := handle_stdin 3 (IoErr EIO_error) draining [] in
  stdin (task_of o) = None /\
  failures (task_of o) = ["[Errno 5] Input/output error"%string].
Proof.
  pose proof (feeder_fatal_error draining [] 3 3 EIO_error
                (Py.encode "payload") eq_refl eq_refl
                ltac:(change (0 < 7); lia)
                ltac:(change (5 <> 4); lia)) as H.
  cbv zeta in *. destruct H as (_ & Hs & _ & _ & _ & Hf & _).
  split; [exact Hs|]. rewrite Hf. reflexivity.
Defined.

(** X15: a fatal read error on the output drainer closes the output
    slot itself: the slot is unregistered and closed, the file of the
    writer (if one is open) is closed and forgotten, one failure entry
    is appended, and the input and error slots and the captured
    output are left alone. *)
Theorem stdout_fatal_error (rt : Runtime) (t : Task) (tr : list event)
    (fd slot : Z) (e : OSError)
    (Hslot : stdout t = Some slot)
    (Hfatal : errno e <> EINTR) :
  let o := handle_stdout rt fd (IoErr e) t tr in
  result_of o = Ok tt /\
  stdout (task_of o) = None /\
  outfile (task_of o) = None /\
  stdin (task_of o) = stdin t /\
  stderr (task_of o) = stderr t /\
  outputbuffer (task_of o) = outputbuffer t /\
  failures (task_of o) = failures (task_of (log_exception e t [])) /\
  length (failures (task_of o)) = S (length (failures t)) /\
  trace_of o
    = tr ++ [EOsRead fd BUFFER_SIZE; EUnregister slot; EClose slot]
         ++ match outfile t with
            | Some h => [EWriterClose h]
            | None => []
            end.
Proof.
  cbv zeta. unfold handle_stdout, close_stdout, log_exception. run_m.
  destruct (Z.eqb_spec (errno e) EINTR); [contradiction|].
  cbn. rewrite Hslot. cbn.
  destruct (outfile t) eqn:Hf; cbn; rewrite length_app, <- !app_assoc; cbn;
    repeat split; auto; lia.
Qed.

Lemma stdout_fatal_error_witness :
  let o := handle_stdout python2 4 (IoErr EIO_error) draining [] in
  stdout (task_of o) = None /\ stderr (task_of o) = Some 5 /\
  failures (task_of o) = ["[Errno 5] Input/output error"%string].
Proof.
  pose proof (stdout_fatal_error python2 draining [] 4 4 EIO_error eq_refl
                ltac:(change (5 <> 4); lia)) as H.
  cbv zeta in *. destruct H as (_ & Ho & _ & _ & He & _ & Hf & _).
  split; [exact Ho|]. split; [exact He|]. rewrite Hf. reflexivity.
Defined.



(** ** Drainers: end of file *)

Lemma no_linebreak_last_not_LF (frag : list byte) :
  no_linebreak frag = true ->
  Py.truthy frag && Py.last_is_not_LF frag = Py.truthy frag.
Proof.
  intros Hf. destruct frag as [|x s _] using rev_ind; [reflexivity|].
  apply no_linebreak_snoc, not_linebreak_inv in Hf as [Hlf _].
  now rewrite truthy_snoc, last_is_not_LF_snoc, Hlf.
Qed.

Lemma splitlines_no_linebreak (frag : list byte) :
  no_linebreak frag = true ->
  Py.splitlines frag = match frag with [] => [] | _ :: _ => [frag] end.
Proof.
  intros Hf. unfold Py.splitlines.
  now rewrite splitlines_from_no_linebreak.
Qed.

(** X17: end of file flushes what the framer held back.  With
    annotation on, a zero-length read on the output drainer writes the
    retained fragment (a run without terminators, as the framer leaves
    it) as one last annotated line bearing the unterminated-line mark,
    clears it, and then closes the slot and the writer's file; with
    nothing retained, nothing is written. *)
Theorem stdout_eof_flushes_fragment (rt : Runtime) (t : Task)
    (tr : list event) (fd slot : Z)
    (Hslot : stdout t = Some slot)
    (Hannotate : annotate_lines t = true)
    (Hfrag : no_linebreak (retained t (Some fd) "out") = true) :
  let frag := retained t (Some fd) "out" in
  let line :=
    format_bytes (format_for rt "out") (host_b t) frag
    ++ UNTERMINATED_LINE_MARK rt ++ [Py.LF] in
  let o := handle_stdout rt fd (IoOk []) t tr in
  result_of o = Ok tt /\
  stdout (task_of o) = None /\
  outfile (task_of o) = None /\
  fd_to_buffer (task_of o) !! (fd, "out"%string) = Some [] /\
  trace_of o
    = tr ++ [EOsRead fd BUFFER_SIZE]
         ++ (if Py.truthy frag
             then [ESinkWrite (outstream t) line; ESinkFlush (outstream t)]
             else [])
         ++ [EUnregister slot; EClose slot]
         ++ match outfile t with
            | Some h => [EWriterClose h]
            | None => []
            end.
Proof.
  cbv zeta. unfold handle_stdout. run_m. rewrite Hannotate. cbn.
  pose proof (print_annotated_lines_bytes rt t (tr ++ [EOsRead fd BUFFER_SIZE])
                [] "out" (Some fd) true) as Hrun.
  cbv zeta in Hrun. rewrite Hrun. clear Hrun.
  rewrite app_nil_r, andb_false_r.
  rewrite (no_linebreak_last_not_LF _ Hfrag).
  rewrite (splitlines_no_linebreak _ Hfrag).
  unfold close_stdout. run_m. unfold retained in *.
  set (kept := default [] (fd_to_buffer t !! (fd, "out"%string))) in *.
  destruct kept as [|b0 frag]; cbn.
  - rewrite Hslot. cbn.
    destruct (outfile t) eqn:Hof; cbn; rewrite ?Hof; cbn;
      rewrite lookup_insert_eq, <- ?app_assoc;
      repeat split; reflexivity.
  - rewrite Hslot. cbn. unfold emitted, annotated, sink_for. cbn.
    rewrite Hannotate.
    destruct (outfile t) eqn:Hof; cbn; rewrite ?Hof; cbn;
      rewrite lookup_insert_eq, <- ?app_assoc; cbn;
      rewrite <- ?app_assoc; repeat split; reflexivity.
Qed.

Lemma stdout_eof_flushes_fragment_witness :
  trace_of (handle_stdout python2 4 (IoOk []) printing [])
  = [EOsRead 4 BUFFER_SIZE;
     ESinkWrite SysStdout (Py.encode "web1 -> ab" ++ [x5c; Py.LF]);
     ESinkFlush SysStdout;
     EUnregister 4; EClose 4].
Proof.
  pose proof (stdout_eof_flushes_fragment python2 printing [] 4 4
                eq_refl eq_refl eq_refl) as H.
  cbv zeta in H. destruct H as (_ & _ & _ & _ & Htr).
  rewrite Htr. reflexivity.
Defined.

(** The framer never raises on bytes. *)
Lemma framer_bytes_returns (rt : Runtime) (t : Task) (tr : list event)
    (data : list byte) (atype : string) (fd : option Z) (force_finish : bool) :
  exists out,
    result_of (print_annotated_lines rt (FBytes data) atype fd force_finish
                 t tr) = Ok out.
Proof.
  pose proof (print_annotated_lines_bytes rt t tr data atype fd force_finish)
    as Hrun.
  cbv zeta in Hrun. rewrite Hrun.
  match goal with
  | |- context [match ?lines with [] => _ | _ :: _ => _ end] =>
      destruct lines; eexists; reflexivity
  end.
Qed.

(** A non-empty read on the output drainer: capture, copy to the
    writer, then frame. *)
Lemma handle_stdout_data (rt : Runtime) (t : Task) (tr : list event)
    (fd : Z) (data : list byte) :
  Py.truthy data = true ->
  let t1 := if inline t || inline_stdout t
            then set_outputbuffer (outputbuffer t ++ data) t else t in
  let tr1 := tr ++ [EOsRead fd BUFFER_SIZE]
                ++ match outfile t with
                   | Some h => [EWriterWrite h data]
                   | None => []
                   end in
  let o := print_annotated_lines rt (FBytes data) "out" (Some fd) false
             t1 tr1 in
  handle_stdout rt fd (IoOk data) t tr
  = if print_out t then (Ok tt, task_of o, trace_of o) else (Ok tt, t1, tr1).
Proof.
  intros Hdata. cbv zeta. unfold handle_stdout. run_m. rewrite Hdata.
  destruct (inline t || inline_stdout t), (outfile t), (print_out t);
    cbn -[print_annotated_lines]; rewrite <- ?app_assoc, ?app_nil_r;
    cbn -[print_annotated_lines]; try reflexivity;
    match goal with
    | |- context [print_annotated_lines rt ?b ?a ?f ?ff ?t1 ?tr1] =>
        destruct (framer_bytes_returns rt t1 tr1 data a f ff) as [out Hout];
        unfold result_of in Hout;
        destruct (print_annotated_lines rt b a f ff t1 tr1) as [[r t'] tr'];
        cbn in Hout; subst r; reflexivity
    end.
Qed.

(** A non-empty read on the error drainer: framed only when both
    printing and annotation are on. *)
Lemma handle_stderr_data (rt : Runtime) (t : Task) (tr : list event)
    (fd : Z) (data : list byte) :
  Py.truthy data = true ->
  let t1 := if inline t then set_errorbuffer (errorbuffer t ++ data) t
            else t in
  let tr1 := tr ++ [EOsRead fd BUFFER_SIZE]
                ++ match errfile t with
                   | Some h => [EWriterWrite h data]
                   | None => []
                   end in
  let o := print_annotated_lines rt (FBytes data) "err" (Some fd) false
             t1 tr1 in
  handle_stderr rt fd (IoOk data) t tr
  = if print_out t && annotate_lines t
    then (Ok tt, task_of o, trace_of o) else (Ok tt, t1, tr1).
Proof.
  intros Hdata. cbv zeta. unfold handle_stderr. run_m. rewrite Hdata.
  destruct (inline t), (errfile t), (print_out t), (annotate_lines t);
    cbn -[print_annotated_lines]; rewrite <- ?app_assoc, ?app_nil_r;
    cbn -[print_annotated_lines]; try reflexivity;
    match goal with
    | |- context [print_annotated_lines rt ?b ?a ?f ?ff ?t1 ?tr1] =>
        destruct (framer_bytes_returns rt t1 tr1 data a f ff) as [out Hout];
        unfold result_of in Hout;
        destruct (print_annotated_lines rt b a f ff t1 tr1) as [[r t'] tr'];
        cbn in Hout; subst r; reflexivity
    end.
Qed.

Lemma filter_sink_write_app (pre evs : list event) :
  List.filter is_sink_write evs = [] ->
  List.filter is_sink_write (pre ++ evs) = List.filter is_sink_write pre.
Proof. intros He. now rewrite List.filter_app, He, app_nil_r. Qed.

(** X18: with annotation off and line buffering on, an unterminated
    last line is never printed: the chunk that holds it is retained,
    and the zero-length read at end of file closes the slot without
    the forced call on the framer, so the fragment stays in
    [fd_to_buffer] and no sink is ever written. *)
Theorem unannotated_fragment_is_dropped (rt : Runtime) (t : Task)
    (tr : list event) (fd slot : Z) (data : list byte)
    (Hslot : stdout t = Some slot)
    (Hprint : print_out t = true)
    (Hraw : annotate_lines t = false)
    (Hbuffering : buffer_lines t = true)
    (Hnone : retained t (Some fd) "out" = [])
    (Hdata : Py.truthy data = true)
    (Hline : no_linebreak data = true) :
  let o := (handle_stdout rt fd (IoOk data);; handle_stdout rt fd (IoOk []))
             t tr in
  result_of o = Ok tt /\
  stdout (task_of o) = None /\
  fd_to_buffer (task_of o) !! (fd, "out"%string) = Some data /\
  List.filter is_sink_write (trace_of o) = List.filter is_sink_write tr.
Proof.
  cbv zeta. unfold bind.
  pose proof (handle_stdout_data rt t tr fd data Hdata) as Hstep.
  cbv zeta in Hstep. rewrite Hstep, Hprint. clear Hstep.
  set (t1 := if inline t || inline_stdout t
             then set_outputbuffer (outputbuffer t ++ data) t else t).
  assert (Hfields : retained t1 (Some fd) "out" = [] /\
                    buffer_lines t1 = true /\ annotate_lines t1 = false /\
                    stdout t1 = Some slot).
  { unfold t1. destruct (inline t || inline_stdout t); auto. }
  destruct Hfields as (Hret1 & Hbuf1 & Hann1 & Hslot1).
  match goal with
  | |- context [print_annotated_lines rt _ _ _ _ t1 ?tr1] =>
      pose proof (print_annotated_lines_bytes rt t1 tr1 data "out" (Some fd)
                    false) as Hrun
  end.
  cbv zeta in Hrun. rewrite Hrun. clear Hrun.
  rewrite Hret1, Hbuf1. cbn [app is_set andb negb].
  rewrite (no_linebreak_last_not_LF _ Hline), Hdata.
  rewrite (splitlines_no_linebreak _ Hline).
  destruct data as [|d0 data']; [discriminate Hdata|].
  cbn [andb Py.but_last Py.last_line removelast List.last task_of trace_of
         fst snd].
  unfold handle_stdout, close_stdout. run_m. cbn. rewrite Hann1. cbn.
  rewrite Hslot1. cbn.
  destruct (outfile t1) eqn:Hof; cbn; rewrite ?Hof; cbn;
    rewrite lookup_insert_eq;
    (split; [reflexivity|]); (split; [reflexivity|]);
    (split; [reflexivity|]);
    rewrite <- ?app_assoc;
    destruct (outfile t); apply filter_sink_write_app; reflexivity.
Qed.

Lemma unannotated_fragment_is_dropped_witness :
  let o := (handle_stdout python2 4 (IoOk (Py.encode "partial"));;
            handle_stdout python2 4 (IoOk [])) unannotated [] in
  stdout (task_of o) = None /\
  fd_to_buffer (task_of o) !! (4, "out"%string) = Some (Py.encode "partial") /\
  List.filter is_sink_write (trace_of o) = [].
Proof.
  pose proof (unannotated_fragment_is_dropped python2 unannotated [] 4 4
                (Py.encode "partial") eq_refl eq_refl eq_refl eq_refl
                eq_refl eq_refl eq_refl) as H.
  cbv zeta in *. destruct H as (_ & Hs & Hf & Htr).
  split; [exact Hs|]. split; [exact Hf | exact Htr].
Defined.

(** ** Drainers: the error stream *)

(** X19: the error stream is printed only with annotation on.  With
    annotation off, a non-empty read on the error drainer is captured
    (when inline capture is on) and copied to the writer's file, but
    never reaches a sink, whatever [print_out] says; the slot stays
    open and no failure is recorded. *)
Theorem stderr_needs_annotation (rt : Runtime) (t : Task) (tr : list event)
    (fd : Z) (data : list byte)
    (Hdata : Py.truthy data = true)
    (Hraw : annotate_lines t = false) :
  handle_stderr rt fd (IoOk data) t tr
  = (Ok tt,
     (if inline t then set_errorbuffer (errorbuffer t ++ data) t else t),
     tr ++ [EOsRead fd BUFFER_SIZE]
        ++ match errfile t with
           | Some h => [EWriterWrite h data]
           | None => []
           end) /\
  List.filter is_sink_write (trace_of (handle_stderr rt fd (IoOk data) t tr))
  = List.filter is_sink_write tr.
Proof.
  pose proof (handle_stderr_data rt t tr fd data Hdata) as Hstep.
  cbv zeta in Hstep. rewrite Hstep, Hraw, andb_false_r. clear Hstep.
  split; [reflexivity|]. unfold trace_of. cbn [snd].
  apply filter_sink_write_app. now destruct (errfile t).
Qed.

Lemma stderr_needs_annotation_witness :
  handle_stderr python2 5 (IoOk (Py.encode "oops")) unannotated []
  = (Ok tt, set_errorbuffer (Py.encode "oops") unannotated,
     [EOsRead 5 BUFFER_SIZE]).
Proof.
  pose proof (stderr_needs_annotation python2 unannotated [] 5
                (Py.encode "oops") eq_refl eq_refl) as [H _].
  rewrite H. reflexivity.
Defined.

(** X20: on Python 3 the end of the error stream cannot flush a
    retained fragment.  The error drainer passes the text literal ['']
    to the framer; with a non-empty fragment retained for the
    descriptor, concatenating bytes and text raises [TypeError], which
    no handler catches: the fragment has already been cleared, nothing
    is written, and the error slot is left open and registered. *)
Theorem stderr_eof_raises_on_python3 (rt : Runtime) (t : Task)
    (tr : list event) (fd : Z)
    (Hpy3 : py3 rt = true)
    (Hannotate : annotate_lines t = true)
    (Hfrag : Py.truthy (retained t (Some fd) "err") = true) :
  handle_stderr rt fd (IoOk []) t tr
  = (Exc (TypeError "can't concat str to bytes"),
     set_fd_to_buffer (<[(fd, "err"%string) := []]> (fd_to_buffer t)) t,
     tr ++ [EOsRead fd BUFFER_SIZE]) /\
  stderr (task_of (handle_stderr rt fd (IoOk []) t tr)) = stderr t.
Proof.
  unfold handle_stderr, print_annotated_lines, add_pre, retained in *. run_m.
  rewrite Hannotate. cbn. rewrite Hfrag, Hpy3. cbn. split; reflexivity.
Qed.

Lemma stderr_eof_raises_on_python3_witness :
  result_of (handle_stderr python3 5 (IoOk []) printing3 [])
  = Exc (TypeError "can't concat str to bytes") /\
  stderr (task_of (handle_stderr python3 5 (IoOk []) printing3 []))
  = Some 5.
Proof.
  pose proof (stderr_eof_raises_on_python3 python3 printing3 [] 5
                eq_refl eq_refl eq_refl) as [Hrun Hslot].
  split; [now rewrite Hrun | exact Hslot].
Defined.

(** ** Drainers: inline capture *)

(** The framer assigns nothing but [fd_to_buffer]. *)
Lemma framer_bytes_frame (rt : Runtime) (t : Task) (tr : list event)
    (data : list byte) (atype : string) (fd : option Z) (force_finish : bool) :
  exists m,
    task_of (print_annotated_lines rt (FBytes data) atype fd force_finish
               t tr) = set_fd_to_buffer m t.
Proof.
  pose proof (print_annotated_lines_bytes rt t tr data atype fd force_finish)
    as Hrun.
  cbv zeta in Hrun. rewrite Hrun.
  destruct fd as [d|].
  - eexists.
    match goal with
    | |- context [match ?lines with [] => _ | _ :: _ => _ end] =>
        destruct lines; reflexivity
    end.
  - exists (fd_to_buffer t).
    match goal with
    | |- context [match ?lines with [] => _ | _ :: _ => _ end] =>
        destruct lines; unfold task_of; cbn; now destruct t
    end.
Qed.

Lemma handle_stdout_data_fields (rt : Runtime) (t : Task) (tr : list event)
    (fd : Z) (data : list byte) :
  Py.truthy data = true ->
  let o := handle_stdout rt fd (IoOk data) t tr in
  result_of o = Ok tt /\
  outputbuffer (task_of o)
    = outputbuffer t ++ (if inline t || inline_stdout t then data else []) /\
  inline (task_of o) = inline t /\
  inline_stdout (task_of o) = inline_stdout t /\
  stdout (task_of o) = stdout t /\
  failures (task_of o) = failures t.
Proof.
  intros Hdata. cbv zeta.
  pose proof (handle_stdout_data rt t tr fd data Hdata) as Hstep.
  cbv zeta in Hstep. rewrite Hstep. clear Hstep.
  set (t1 := if inline t || inline_stdout t
             then set_outputbuffer (outputbuffer t ++ data) t else t).
  assert (Ht1 : outputbuffer t1
                = outputbuffer t
                  ++ (if inline t || inline_stdout t then data else []) /\
                inline t1 = inline t /\ inline_stdout t1 = inline_stdout t /\
                stdout t1 = stdout t /\ failures t1 = failures t).
  { unfold t1. destruct (inline t || inline_stdout t); cbn;
      rewrite ?app_nil_r; auto. }
  destruct (print_out t); [| exact (conj eq_refl Ht1)].
  match goal with
  | |- context [print_annotated_lines rt _ _ _ _ t1 ?tr1] =>
      destruct (framer_bytes_frame rt t1 tr1 data "out" (Some fd) false)
        as [m Hm]
  end.
  unfold result_of, task_of in *. cbn [fst snd] in *. rewrite Hm.
  split; [reflexivity | exact Ht1].
Qed.

Lemma handle_stderr_data_fields (rt : Runtime) (t : Task) (tr : list event)
    (fd : Z) (data : list byte) :
  Py.truthy data = true ->
  let o := handle_stderr rt fd (IoOk data) t tr in
  result_of o = Ok tt /\
  errorbuffer (task_of o) = errorbuffer t ++ (if inline t then data else []) /\
  inline (task_of o) = inline t /\
  stderr (task_of o) = stderr t /\
  failures (task_of o) = failures t.
Proof.
  intros Hdata. cbv zeta.
  pose proof (handle_stderr_data rt t tr fd data Hdata) as Hstep.
  cbv zeta in Hstep. rewrite Hstep. clear Hstep.
  set (t1 := if inline t then set_errorbuffer (errorbuffer t ++ data) t
             else t).
  assert (Ht1 : errorbuffer t1
                = errorbuffer t ++ (if inline t then data else []) /\
                inline t1 = inline t /\ stderr t1 = stderr t /\
                failures t1 = failures t).
  { unfold t1. destruct (inline t) eqn:Hi; cbn; rewrite ?Hi, ?app_nil_r; auto. }
  destruct (print_out t && annotate_lines t); [| exact (conj eq_refl Ht1)].
  match goal with
  | |- context [print_annotated_lines rt _ _ _ _ t1 ?tr1] =>
      destruct (framer_bytes_frame rt t1 tr1 data "err" (Some fd) false)
        as [m Hm]
  end.
  unfold result_of, task_of in *. cbn [fst snd] in *. rewrite Hm.
  split; [reflexivity | exact Ht1].
Qed.

(** X21: inline capture keeps everything that was read.  After any
    sequence of non-empty reads, the captured output is what it was
    followed by the chunks read, in order, when [inline] or
    [inline_stdout] is on, and is untouched otherwise; the captured
    error likewise, but under [inline] alone.  Printing and framing
    never alter the captured bytes, no read closes the slot or records
    a failure. *)
Theorem capture_accumulates (rt : Runtime) (fd : Z)
    (chunks : list (list byte)) :
  forall (t : Task) (tr : list event)
         (Hchunks : forallb Py.truthy chunks = true),
    let o := drain_stdout rt fd chunks t tr in
    let e := drain_stderr rt fd chunks t tr in
    (result_of o = Ok tt /\
     outputbuffer (task_of o)
       = outputbuffer t
         ++ (if inline t || inline_stdout t then concat chunks else []) /\
     stdout (task_of o) = stdout t /\
     failures (task_of o) = failures t) /\
    (result_of e = Ok tt /\
     errorbuffer (task_of e)
       = errorbuffer t ++ (if inline t then concat chunks else []) /\
     stderr (task_of e) = stderr t /\
     failures (task_of e) = failures t).
Proof.
  induction chunks as [|chunk rest IH]; intros t tr Hchunks; cbv zeta.
  - unfold drain_stdout, drain_stderr, ret, result_of, task_of.
    cbn [fst snd concat].
    destruct (inline t || inline_stdout t), (inline t); rewrite ?app_nil_r;
      repeat split; reflexivity.
  - cbn [forallb] in Hchunks. apply andb_true_iff in Hchunks as [Hc Hrest].
    cbn [drain_stdout drain_stderr concat]. unfold bind. split.
    + destruct (handle_stdout_data_fields rt t tr fd chunk Hc)
        as (Hres & Hbuf & Hi & His & Hslot & Hf).
      unfold result_of, task_of in Hres, Hbuf, Hi, His, Hslot, Hf.
      destruct (handle_stdout rt fd (IoOk chunk) t tr) as [[r t1] tr1].
      cbn [fst snd] in *. subst r.
      destruct (IH t1 tr1 Hrest) as [(Hres' & Hbuf' & Hslot' & Hf') _].
      rewrite Hres', Hbuf', Hslot', Hf', Hbuf, Hi, His, Hslot, Hf.
      destruct (inline t || inline_stdout t); rewrite ?app_nil_r, <- ?app_assoc;
        repeat split; reflexivity.
    + destruct (handle_stderr_data_fields rt t tr fd chunk Hc)
        as (Hres & Hbuf & Hi & Hslot & Hf).
      unfold result_of, task_of in Hres, Hbuf, Hi, Hslot, Hf.
      destruct (handle_stderr rt fd (IoOk chunk) t tr) as [[r t1] tr1].
      cbn [fst snd] in *. subst r.
      destruct (IH t1 tr1 Hrest) as [_ (Hres' & Hbuf' & Hslot' & Hf')].
      rewrite Hres', Hbuf', Hslot', Hf', Hbuf, Hi, Hslot, Hf.
      destruct (inline t); rewrite ?app_nil_r, <- ?app_assoc;
        repeat split; reflexivity.
Qed.

Lemma capture_accumulates_witness :
  outputbuffer
    (task_of (drain_stdout python2 4
                [Py.encode "par"; Py.encode "tial"; chunk_two_lines]
                unannotated []))
  = Py.encode "partial" ++ chunk_two_lines.
Proof.
  pose proof (capture_accumulates python2 4
                [Py.encode "par"; Py.encode "tial"; chunk_two_lines]
                unannotated [] eq_refl) as H.
  cbv zeta in H. destruct H as [(_ & Hbuf & _) _].
  rewrite Hbuf. reflexivity.
Defined.

(** ** Line framer: what is retained and what is written *)

Lemma no_linebreak_app (a b : list byte) :
  no_linebreak (a ++ b) = no_linebreak a && no_linebreak b.
Proof. apply forallb_app. Qed.

Lemma all_clean_cons (x : list byte) (l : list (list byte)) :
  all_clean (x :: l) = no_linebreak x && all_clean l.
Proof. reflexivity. Qed.

(** No line that [splitlines] yields holds a terminator. *)
Lemma splitlines_from_clean (n : nat) :
  forall (l cur : list byte),
    (length l <= n)%nat ->
    no_linebreak cur = true ->
    all_clean (Py.splitlines_from cur l) = true.
Proof.
  induction n as [n IH] using lt_wf_ind.
  intros l cur Hlen Hcur.
  destruct l as [|c rest]; cbn [Py.splitlines_from].
  - destruct cur; [reflexivity|]. now rewrite all_clean_cons, Hcur.
  - cbn [length] in Hlen.
    destruct (Py.is_LF c) eqn:Hlf.
    + rewrite all_clean_cons, Hcur.
      apply (IH (length rest)); [lia | lia | reflexivity].
    + destruct (Py.is_CR c) eqn:Hcr.
      * destruct rest as [|c' rest'].
        -- now rewrite all_clean_cons, Hcur.
        -- cbn [length] in Hlen.
           destruct (Py.is_LF c'); rewrite all_clean_cons, Hcur.
           ++ apply (IH (length rest')); [lia | lia | reflexivity].
           ++ apply (IH (length (c' :: rest'))); [cbn; lia | lia | reflexivity].
      * apply (IH (length rest)); [lia | lia |].
        rewrite no_linebreak_app, Hcur. cbn.
        unfold Py.is_linebreak. now rewrite Hlf, Hcr.
Qed.

Lemma splitlines_clean (buf : list byte) :
  all_clean (Py.splitlines buf) = true.
Proof. apply (splitlines_from_clean (length buf)); [lia | reflexivity]. Qed.

Lemma last_line_clean (lines : list (list byte)) :
  all_clean lines = true -> no_linebreak (Py.last_line lines) = true.
Proof.
  unfold Py.last_line.
  destruct lines as [|x l _] using rev_ind; [reflexivity|].
  unfold all_clean. rewrite forallb_app, last_last. cbn.
  intros H. apply andb_true_iff in H as [_ H].
  now rewrite andb_true_r in H.
Qed.

(** X22: what the framer retains is always a fragment of one line.
    After any call on bytes with a descriptor, whatever was retained
    before and whether or not completion is forced, the fragment
    retained for that descriptor and kind holds no line terminator
    (neither LF nor CR); the fragments of all other descriptors and
    kinds, and every other attribute of the task, are left as they
    were. *)
Theorem retained_fragment_is_clean (rt : Runtime) (t : Task)
    (tr : list event) (data : list byte) (atype : string) (d : Z)
    (force_finish : bool) :
  let o := print_annotated_lines rt (FBytes data) atype (Some d)
             force_finish t tr in
  no_linebreak (retained (task_of o) (Some d) atype) = true /\
  (forall k, k <> (d, atype) ->
             fd_to_buffer (task_of o) !! k = fd_to_buffer t !! k) /\
  task_of o = set_fd_to_buffer (fd_to_buffer (task_of o)) t.
Proof.
  cbv zeta.
  pose proof (print_annotated_lines_bytes rt t tr data atype (Some d)
                force_finish) as Hrun.
  cbv zeta in Hrun. rewrite Hrun. clear Hrun.
  set (buf := retained t (Some d) atype ++ data).
  set (hold := is_set (Some d) && (Py.truthy buf && Py.last_is_not_LF buf)
               && buffer_lines t && negb force_finish).
  assert (Hclean : no_linebreak (if hold then Py.last_line (Py.splitlines buf)
                                 else []) = true).
  { destruct hold; [| reflexivity].
    apply last_line_clean, splitlines_clean. }
  match goal with
  | |- context [match ?lines with [] => _ | _ :: _ => _ end] =>
      destruct lines
  end;
    unfold task_of, retained; cbn [fst snd fd_to_buffer set_fd_to_buffer];
    rewrite lookup_insert_eq; cbn [default];
    (split; [exact Hclean|]);
    (split; [intros k Hk; now rewrite lookup_insert_ne | reflexivity]).
Qed.

(** X23: one call, one write.  A call of the framer on bytes either
    writes nothing (and returns the empty bytes), or makes exactly one
    write directly followed by a flush of the same sink; what it
    writes is what it returns and ends with LF; the sink is the error
    sink for the kind ['err'] and the output sink for every other
    kind. *)
Theorem framer_writes_once (rt : Runtime) (t : Task) (tr : list event)
    (data : list byte) (atype : string) (fd : option Z) (force_finish : bool) :
  let o := print_annotated_lines rt (FBytes data) atype fd force_finish t tr in
  let sink := if String.eqb atype "err" then errstream t else outstream t in
  (result_of o = Ok [] /\ trace_of o = tr) \/
  (exists body,
      result_of o = Ok (body ++ [Py.LF]) /\
      trace_of o = tr ++ [ESinkWrite sink (body ++ [Py.LF]); ESinkFlush sink]).
Proof.
  cbv zeta.
  pose proof (print_annotated_lines_bytes rt t tr data atype fd force_finish)
    as Hrun.
  cbv zeta in Hrun. rewrite Hrun. clear Hrun. unfold sink_for.
  match goal with
  | |- context [match ?lines with [] => _ | _ :: _ => _ end] =>
      destruct lines
  end.
  - left. split; reflexivity.
  - right. eexists. split; reflexivity.
Qed.

(** ** Line framer: annotation *)

Lemma format_for_marker (rt : Runtime) (atype : string) :
  format_for rt atype = output_format (marker_of rt atype).
Proof.
  unfold format_for, marker_of, OUTPUT_FORMATS.
  cbn [list_to_map foldr fst snd uncurry curry].
  destruct (String.eqb_spec atype "err") as [-> | Herr].
  { now rewrite lookup_insert_eq. }
  rewrite lookup_insert_ne by congruence.
  destruct (String.eqb_spec atype "out") as [-> | Hout].
  { now rewrite lookup_insert_eq. }
  rewrite lookup_insert_ne by congruence.
  destruct (decide (atype = ""%string)) as [-> | Hnil].
  { now rewrite lookup_insert_eq. }
  rewrite lookup_insert_ne by congruence.
  now rewrite lookup_empty.
Qed.

(** X24: annotation only puts a prefix in front of the line: the host,
    a blank, the marker of the kind and a blank.  The kind ['err'] has
    its own marker, ['out'] its own, and every other kind, whether it is
    [''] or has no entry in [OUTPUT_FORMATS], the default one.  Dropping
    the prefix gives the raw line back. *)
Theorem annotation_is_a_prefix (rt : Runtime) (t : Task) (atype : string)
    (line : list byte) :
  let prefix :=
    host_b t ++ Py.encode (" " +:+ marker_of rt atype +:+ " ") in
  format_bytes (format_for rt atype) (host_b t) line = prefix ++ line /\
  skipn (length prefix)
    (format_bytes (format_for rt atype) (host_b t) line) = line.
Proof.
  cbv zeta. rewrite format_for_marker.
  unfold output_format, format_bytes. cbn [map concat].
  rewrite app_nil_r, <- app_assoc.
  split; [reflexivity|].
  rewrite app_assoc. rewrite skipn_app, skipn_all, Nat.sub_diag.
  reflexivity.
Qed.

(** ** Reporter: binary sinks *)

(** X25: on binary sinks the captured error is never reported.  When
    the output sink is a binary buffer (as [init] assigns on Python 3)
    and a captured error exists, [report] writes and flushes the
    summary line and the captured output, then raises [TypeError] on
    the text marker of the error section: the captured error is not
    written, and the task is left as it was. *)
Theorem report_on_binary_sink (rt : Runtime) (t : Task) (tr : list event)
    (n : Z) (has_colors : bool) (tstamp : string)
    (Hbinary : is_binary (outstream t) = true)
    (Herror : Py.truthy (errorbuffer t) = true) :
  report rt n has_colors tstamp t tr
  = (Exc (TypeError "a bytes-like object is required, not 'str'"), t,
     tr ++ [ESinkWrite (errstream t)
              (Py.encode (report_msg rt n has_colors tstamp t) ++ [Py.LF]);
            ESinkFlush (errstream t)]
        ++ (if Py.truthy (outputbuffer t)
            then [ESinkFlush (outstream t);
                  ESinkWrite (outstream t) (outputbuffer t);
                  ESinkFlush (outstream t)]
            else [])).
Proof.
  unfold report, sink_write. run_m. rewrite Herror.
  destruct (Py.truthy (outputbuffer t)); cbn; rewrite Hbinary;
    rewrite <- ?app_assoc; cbn; rewrite ?app_nil_r; reflexivity.
Qed.

Lemma report_on_binary_sink_witness :
  result_of (report python3 1 false "12:00:00" captured3 [])
  = Exc (TypeError "a bytes-like object is required, not 'str'") /\
  List.filter is_sink_write
    (trace_of (report python3 1 false "12:00:00" captured3 []))
  = [ESinkWrite SysStderrBuffer
       (Py.encode "[1] 12:00:00 [SUCCESS] web1" ++ [Py.LF]);
     ESinkWrite SysStdoutBuffer (Py.encode "up 3 days")].
Proof.
  pose proof (report_on_binary_sink python3 captured3 [] 1 false "12:00:00"
                eq_refl eq_refl) as H.
  rewrite H. split; reflexivity.
Defined.

(** ** Supervisor: a timeout without an exit code *)

(** X26: a timed-out task terminates even when its exit code never
    becomes available.  On a task with the three slots closed, a process
    handle and [killed] false, [timedout] followed by [running] with no
    exit code yet signals the process group, records exactly
    ["Timed out"], sets the exit status to [-SIGKILL] and reports
    termination ([False]). *)
Theorem timeout_terminates (t : Task) (tr : list event) (p : Popen)
    (Hin : stdin t = None) (Hout : stdout t = None) (Herr : stderr t = None)
    (Hproc : proc t = Some p) (Hlive : killed t = false) :
  (timedout;; running None) t tr
  = (Ok (Some false),
     set_exitstatus (Some (- SIGKILL))
       (set_failures (failures t ++ ["Timed out"%string]) (set_killed true t)),
     tr ++ [EKill (- pid p) SIGKILL; EPoll (pid p)]).
Proof.
  unfold timedout, _kill, running. run_m. rewrite Hlive. cbn.
  rewrite Hproc. cbn. rewrite Hin, Hout, Herr, Hproc. cbn.
  rewrite <- app_assoc. reflexivity.
Qed.

Lemma timeout_terminates_witness :
  let o := (timedout;; running None) drained [] in
  result_of o = Ok (Some false) /\
  exitstatus (task_of o) = Some (-9) /\
  failures (task_of o) = ["Timed out"%string].
Proof.
  pose proof (timeout_terminates drained [] child
                eq_refl eq_refl eq_refl eq_refl eq_refl) as H.
  cbv zeta. rewrite H. repeat split.
Defined.
